(** * Firecrawl MCP client: result normalisation and persistence

    A shallow embedding of [firecrawl_client.py] (class [FirecrawlMCPClient]).

    Python values are finite trees ([pyval]); the console, the file system,
    pandas and the MCP session are an [environment] of oracles plus a trace
    of emitted events; exceptions are explicit results. *)

From Stdlib Require Import ZArith List String Ascii Bool Lia.
Import ListNotations.
Local Open Scope string_scope.
Local Open Scope Z_scope.
Local Open Scope list_scope.

(** ** Python values *)

(** The values a response can be made of.  Floats, sets and generators are
    not modelled; reference cycles are not modelled (values are finite).
    [PObj] is an instance whose attributes live in its [__dict__] (in
    insertion order) and whose class defines neither [__iter__] nor
    [__bool__]/[__len__]; [PDict] keeps insertion order, which is the order
    Python iterates and prints a dict in. *)
#[warnings="-register-all"]
Inductive pyval : Type :=
| PNone
| PBool (b : bool)
| PInt (z : Z)
| PStr (s : string)
| PBytes (bs : list Byte.byte)
| PList (items : list pyval)
| PTuple (items : list pyval)
| PDict (entries : list (pyval * pyval))
| PObj (attrs : list (string * pyval)).

(** Results of operations that may raise.  The exceptions of the model are
    instances of Python's [Exception] (a class name and the message
    [str(e)]); interrupts and task cancellation are outside the model. *)
Record exception : Type := Exception { exc_class : string; exc_message : string }.

Inductive result (A : Type) : Type :=
| Returned (a : A)
| Raised (e : exception).
Arguments Returned {A} a.
Arguments Raised {A} e.

(** [s.startswith(p)] *)
Fixpoint startswith (s p : string) {struct p} : bool :=
  match p with
  | EmptyString => true
  | String a p' =>
      match s with
      | EmptyString => false
      | String b s' => Ascii.eqb a b && startswith s' p'
      end
  end.

Module Py.

(** [needle in hay] on strings *)
Fixpoint contains (needle hay : string) : bool :=
  startswith hay needle ||
  match hay with
  | EmptyString => false
  | String _ rest => contains needle rest
  end.

(** Look-up in an attribute dictionary. *)
Fixpoint lookup (name : string) (attrs : list (string * pyval)) : option pyval :=
  match attrs with
  | [] => None
  | (k, v) :: rest => if String.eqb k name then Some v else lookup name rest
  end.

(** [hasattr(obj, name)] for the attribute names the client reads
    ([text], [content], [data], [results], [resources], [uri], [name]):
    none of them exists on the built-in types. *)
Definition hasattr (obj : pyval) (name : string) : bool :=
  match obj with
  | PObj attrs => match lookup name attrs with Some _ => true | None => false end
  | _ => false
  end.

(** [hasattr(obj, '__dict__')] *)
Definition has_dict (obj : pyval) : bool :=
  match obj with PObj _ => true | _ => false end.

(** [hasattr(obj, '__iter__')] *)
Definition has_iter (obj : pyval) : bool :=
  match obj with
  | PStr _ | PBytes _ | PList _ | PTuple _ | PDict _ => true
  | _ => false
  end.

Definition isinstance_str (obj : pyval) : bool :=
  match obj with PStr _ => true | _ => false end.

Definition isinstance_str_or_bytes (obj : pyval) : bool :=
  match obj with PStr _ | PBytes _ => true | _ => false end.

Definition isinstance_list (obj : pyval) : bool :=
  match obj with PList _ => true | _ => false end.

Definition byte_value (b : Byte.byte) : pyval := PInt (Z.of_N (Byte.to_N b)).

Fixpoint chars (s : string) : list pyval :=
  match s with
  | EmptyString => []
  | String c rest => PStr (String c EmptyString) :: chars rest
  end.

(** What [for item in obj] yields, for the values that have [__iter__]:
    a dict yields its keys, bytes yield integers, a string its
    characters. *)
Definition iter (obj : pyval) : list pyval :=
  match obj with
  | PList items | PTuple items => items
  | PDict entries => map fst entries
  | PBytes bs => map byte_value bs
  | PStr s => chars s
  | _ => []
  end.

(** Truth value of [obj] in a condition. *)
Definition truthy (obj : pyval) : bool :=
  match obj with
  | PNone => false
  | PBool b => b
  | PInt z => negb (z =? 0)
  | PStr s => negb (String.eqb s "")
  | PBytes bs => negb (Nat.eqb (List.length bs) 0)
  | PList items | PTuple items => negb (Nat.eqb (List.length items) 0)
  | PDict entries => negb (Nat.eqb (List.length entries) 0)
  | PObj _ => true
  end.

(** [d[key] = value] on a dict whose keys are attribute names: an
    existing key keeps its position. *)
Fixpoint setitem (d : list (pyval * pyval)) (key : string) (value : pyval)
  : list (pyval * pyval) :=
  match d with
  | [] => [(PStr key, value)]
  | (k, v) :: rest =>
      match k with
      | PStr k' => if String.eqb k' key then (k, value) :: rest
                   else (k, v) :: setitem rest key value
      | _ => (k, v) :: setitem rest key value
      end
  end.

(** [obj.name], which raises [AttributeError] when the attribute is
    missing. *)
Definition getattr (obj : pyval) (name : string) : result pyval :=
  match obj with
  | PObj attrs =>
      match lookup name attrs with
      | Some v => Returned v
      | None => Raised (Exception "AttributeError" name)
      end
  | _ => Raised (Exception "AttributeError" name)
  end.

(** [iter(obj)], which raises [TypeError] on a value without
    [__iter__]. *)
Definition iterate (obj : pyval) : result (list pyval) :=
  if has_iter obj then Returned (iter obj)
  else Raised (Exception "TypeError" "object is not iterable").

Fixpoint string_firstn (n : nat) (s : string) : string :=
  match n, s with
  | S k, String c rest => String c (string_firstn k rest)
  | _, _ => EmptyString
  end.

(** [obj[:n]]: defined on sequences, [TypeError] elsewhere. *)
Definition slice_to (n : nat) (obj : pyval) : result pyval :=
  match obj with
  | PStr s => Returned (PStr (string_firstn n s))
  | PBytes bs => Returned (PBytes (firstn n bs))
  | PList items => Returned (PList (firstn n items))
  | PTuple items => Returned (PTuple (firstn n items))
  | _ => Raised (Exception "TypeError" "object is not subscriptable")
  end.

(** The values the encoder writes as a bracketed sequence of elements. *)
Definition json_container (v : pyval) : bool :=
  match v with
  | PList _ | PTuple _ | PDict _ => true
  | _ => false
  end.

Definition json_key (k : pyval) : bool :=
  match k with
  | PNone | PBool _ | PInt _ | PStr _ => true
  | _ => false
  end.

(** Whether the [json] encoder accepts the value. *)
Fixpoint json_encodable (v : pyval) : bool :=
  match v with
  | PNone | PBool _ | PInt _ | PStr _ => true
  | PBytes _ => false
  | PList items | PTuple items => forallb json_encodable items
  | PDict entries =>
      forallb (fun kv => json_key (fst kv) && json_encodable (snd kv)) entries
  | PObj _ => false
  end.

End Py.

(** ** Serializable-form reduction *)

(** [FirecrawlMCPClient._make_serializable]: an object with a [__dict__]
    becomes a dict of its public attributes, any other iterable that is not
    [str]/[bytes] becomes the list of what it yields, everything else is
    returned as it is. *)
Fixpoint _make_serializable (obj : pyval) : pyval :=
  match obj with
  | PObj attrs =>
      PDict
        ((fix items (l : list (string * pyval)) (result : list (pyval * pyval))
            {struct l} : list (pyval * pyval) :=
            match l with
            | [] => result
            | (key, value) :: rest =>
                if startswith key "_" then items rest result
                else items rest (Py.setitem result key (_make_serializable value))
            end) attrs [])
  | PList items | PTuple items => PList (map _make_serializable items)
  | PDict entries =>
      PList (map (fun kv => _make_serializable (fst kv)) entries)
  | PStr _ | PBytes _ => obj
  | PNone | PBool _ | PInt _ => obj
  end.

(** ** Text reduction *)

Definition newline : string := String (ascii_of_nat 10) EmptyString.

(** The blank-line separator ["\n\n"]. *)
Definition blank_line : string := (newline ++ newline)%string.

(** [sep.join(parts)]: every part must be a [str]. *)
Fixpoint str_join (sep : string) (parts : list pyval) : result string :=
  match parts with
  | [] => Returned ""
  | PStr s :: rest =>
      match rest with
      | [] => Returned s
      | _ :: _ =>
          match str_join sep rest with
          | Returned t => Returned (s ++ sep ++ t)%string
          | Raised e => Raised e
          end
      end
  | _ :: _ => Raised (Exception "TypeError" "sequence item: expected str instance")
  end.

(** The inner function [extract_text] of [_extract_text_content].  The list
    [text_parts] the closure appends to is passed in and returned. *)
Fixpoint extract_text (obj : pyval) (level : nat) (text_parts : list pyval)
  {struct obj} : list pyval :=
  match obj with
  | PObj attrs =>
      match Py.lookup "text" attrs with
      | Some text => text_parts ++ [text]
      | None =>
          (fix probe (l : list (string * pyval)) {struct l} : list pyval :=
             match l with
             | [] => text_parts
             | (name, content) :: rest =>
                 if String.eqb name "content" then
                   match content with
                   | PStr _ => text_parts ++ [content]
                   | PList items | PTuple items =>
                       fold_left (fun parts item => extract_text item (S level) parts)
                                 items text_parts
                   | PDict entries =>
                       fold_left (fun parts kv => extract_text (fst kv) (S level) parts)
                                 entries text_parts
                   | PBytes _ => text_parts
                   | _ => text_parts
                   end
                 else probe rest
             end) attrs
      end
  | PList items | PTuple items =>
      fold_left (fun parts item => extract_text item (S level) parts) items text_parts
  | PDict entries =>
      fold_left (fun parts kv => extract_text (fst kv) (S level) parts) entries text_parts
  | PBytes _ => text_parts
  | PStr _ => text_parts ++ [obj]
  | PNone | PBool _ | PInt _ => text_parts
  end.

(** [FirecrawlMCPClient._extract_text_content] *)
Definition _extract_text_content (data : pyval) : result (option string) :=
  let text_parts := extract_text data 0 [] in
  match text_parts with
  | [] => Returned None
  | _ :: _ =>
      match str_join blank_line text_parts with
      | Returned s => Returned (Some s)
      | Raised e => Raised e
      end
  end.

(** ** Strings, paths and clock readings *)

Module Str.

(** [s.replace(old, new)] for a non-empty [old]: occurrences are replaced
    left to right and do not overlap; [skip] counts the characters of an
    occurrence still to be dropped. *)
Fixpoint replace_from (old new s : string) (skip : nat) : string :=
  match s with
  | EmptyString => EmptyString
  | String c rest =>
      match skip with
      | S k => replace_from old new rest k
      | O =>
          if startswith s old
          then (new ++ replace_from old new rest (Nat.pred (String.length old)))%string
          else String c (replace_from old new rest O)
      end
  end.

Definition replace (s old new : string) : string := replace_from old new s O.

(** [f"{x}"] for a value that is a string or [None]. *)
Definition format_opt (x : option string) : string :=
  match x with Some s => s | None => "None" end.

End Str.

Module Path.

Definition is_absolute (p : string) : bool := startswith p "/".

(** [p.split('/')] *)
Fixpoint split (p : string) : list string :=
  match p with
  | EmptyString => [EmptyString]
  | String c rest =>
      if Ascii.eqb c "/" then EmptyString :: split rest
      else match split rest with
           | head :: tail => String c head :: tail
           | [] => [String c EmptyString]
           end
  end.

(** ['/'.join(parts)] *)
Fixpoint join (parts : list string) : string :=
  match parts with
  | [] => EmptyString
  | part :: rest =>
      match rest with
      | [] => part
      | _ :: _ => (part ++ "/" ++ join rest)%string
      end
  end.

(** [p.endswith('/')] *)
Fixpoint endswith_slash (p : string) : bool :=
  match p with
  | EmptyString => false
  | String c rest =>
      match rest with
      | EmptyString => Ascii.eqb c "/"
      | String _ _ => endswith_slash rest
      end
  end.

Fixpoint drop (n : nat) (p : string) : string :=
  match n, p with
  | S k, String _ rest => drop k rest
  | _, _ => p
  end.

(** [posixpath.join(a, b)]: an absolute right-hand side replaces the
    left-hand side, and no second slash is put after a trailing one. *)
Definition posix_join (a b : string) : string :=
  if is_absolute b then b
  else if String.eqb a "" || endswith_slash a then (a ++ b)%string
  else (a ++ "/" ++ b)%string.

(** [posixpath.splitroot(p)] without the drive: exactly two leading
    slashes are a root of their own. *)
Definition splitroot (p : string) : string * string :=
  if startswith p "///" then ("/", drop 1 p)
  else if startswith p "//" then ("//", drop 2 p)
  else if startswith p "/" then ("/", drop 1 p)
  else ("", p).

(** The components pathlib keeps: empty ones and single dots are
    dropped. *)
Definition kept (part : string) : bool :=
  negb (String.eqb part "") && negb (String.eqb part ".").

(** [str(PurePosixPath(p))] *)
Definition normalize (p : string) : string :=
  let (root, rel) := splitroot p in
  let text := (root ++ join (filter kept (split rel)))%string in
  if String.eqb text "" then "." else text.

(** [str(Path(dir) / name)] *)
Definition joinpath (dir name : string) : string :=
  normalize (posix_join dir name).

(** The last component of [p.split('/')]. *)
Definition basename (p : string) : string := last (split p) EmptyString.

End Path.

(** A naive local clock reading, as [datetime.now()] returns it. *)
Record datetime : Type := {
  year : Z; month : Z; day : Z;
  hour : Z; minute : Z; second : Z; microsecond : Z
}.

Module Datetime.

Definition digit (d : Z) : ascii := ascii_of_nat (48 + Z.to_nat d).

(** Zero-padded decimal fields, written in front of [rest]. *)
Definition pad2 (n : Z) (rest : string) : string :=
  String (digit (n / 10)) (String (digit (n mod 10)) rest).

Definition pad4 (n : Z) (rest : string) : string :=
  pad2 (n / 100) (pad2 (n mod 100) rest).

Definition pad6 (n : Z) (rest : string) : string :=
  pad2 (n / 10000) (pad4 (n mod 10000) rest).

(** [dt.strftime("%Y%m%d_%H%M%S")] *)
Definition strftime_Ymd_HMS (dt : datetime) : string :=
  pad4 (year dt) (pad2 (month dt) (pad2 (day dt)
    (String "_" (pad2 (hour dt) (pad2 (minute dt) (pad2 (second dt) "")))))).

(** [dt.isoformat()] of a naive reading: the fraction is left out when
    the microsecond is zero. *)
Definition isoformat (dt : datetime) : string :=
  pad4 (year dt) (String "-" (pad2 (month dt) (String "-" (pad2 (day dt)
    (String "T" (pad2 (hour dt) (String ":" (pad2 (minute dt) (String ":"
      (pad2 (second dt)
         (if microsecond dt =? 0 then ""
          else String "." (pad6 (microsecond dt) "")))))))))))).

(** The proleptic Gregorian ordinal of the date, as [datetime.toordinal]
    computes it (1 January of year 1 is day 1). *)
Definition is_leap (y : Z) : bool :=
  (y mod 4 =? 0) && (negb (y mod 100 =? 0) || (y mod 400 =? 0)).

Definition days_before_year (y : Z) : Z :=
  let y' := y - 1 in y' * 365 + y' / 4 - y' / 100 + y' / 400.

Definition days_in_month (y m : Z) : Z :=
  if m =? 2 then (if is_leap y then 29 else 28)
  else if (m =? 4) || (m =? 6) || (m =? 9) || (m =? 11) then 30 else 31.

Fixpoint days_before_month_from (y : Z) (months : nat) : Z :=
  match months with
  | O => 0
  | S k => days_before_month_from y k + days_in_month y (Z.of_nat (S k))
  end.

Definition days_before_month (y m : Z) : Z :=
  days_before_month_from y (Z.to_nat (m - 1)).

Definition toordinal (dt : datetime) : Z :=
  days_before_year (year dt) + days_before_month (year dt) (month dt) + day dt.

(** Microseconds elapsed on the naive time line; the difference of two
    readings, [dt1 - dt2], is the difference of these. *)
Definition total_microseconds (dt : datetime) : Z :=
  (((toordinal dt * 24 + hour dt) * 60 + minute dt) * 60 + second dt) * 1000000
  + microsecond dt.

(** The field ranges a [datetime] object has. *)
Definition valid (dt : datetime) : Prop :=
  1 <= year dt <= 9999 /\ 1 <= month dt <= 12 /\
  1 <= day dt <= days_in_month (year dt) (month dt) /\
  0 <= hour dt < 24 /\ 0 <= minute dt < 60 /\ 0 <= second dt < 60 /\
  0 <= microsecond dt < 1000000.

End Datetime.

(** ** The outside world *)

(** A table as pandas holds it: column labels and rows of cells. *)
Record DataFrame : Type := { columns : list pyval; rows : list (list pyval) }.

(** What [pd.DataFrame(data)] is for a flat list of scalars: one column,
    labelled 0, with one row per element. *)
Definition one_column (data : list pyval) : DataFrame :=
  {| columns := [PInt 0]; rows := map (fun cell => [cell]) data |}.

(** Everything the client does not decide itself: the clock, the file
    system's refusals, pandas' constructor and the MCP session. *)
Record environment : Type := {
  now : datetime;
  resolve : string -> string;
  mkdir_error : string -> option exception;
  open_error : string -> option exception;
  write_error : string -> option exception;
  pd_DataFrame : list pyval -> result DataFrame;
  session_call_tool : string -> pyval -> result pyval;
  session_list_resources : result pyval
}.

(** What is written into a file.  [JsonPrefix value] is the beginning of
    the JSON text of [value], up to the element the encoder rejected. *)
Inductive payload : Type :=
| JsonText (value : pyval)
| JsonPrefix (value : pyval)
| PlainText (text : string)
| CsvTable (df : DataFrame)
| ExcelSheet (df : DataFrame).

(** Console lines, kept structured: interpolated values are carried as
    they are. *)
Inductive message : Type :=
| AvailableResources
| ResourceLine (uri name : pyval)
| ResourcesNotSupported
| ErrorListingResources (e : exception)
| SavedJson (path : string)
| ErrorSavingJson (e : exception)
| SavedMarkdown (path : string)
| ErrorSavingMarkdown (e : exception)
| NoContentToSave
| UnsupportedFormat (format : string)
| SavedTable (filename format : string)
| FailedToSaveTable (e : exception)
| CrawlOk (url : string)
| CrawlError (url : string) (e : exception)
| ScrapeParams (params : pyval)
| RawResultType (value : pyval)
| RawResult (value : pyval)
| ContentType (content : pyval)
| ContentLength (n : nat)
| ContentItemType (i : nat) (item : pyval)
| ContentItem (i : nat) (item : pyval)
| ContentValue (content : pyval)
| ResultData (value : pyval)
| ResultResults (value : pyval)
| ResultText (value : pyval)
| ScrapeOk (url : string)
| ScrapeError (url : string) (e : exception)
| ExceptionType (e : exception)
| Traceback (e : exception)
| ExtractParams (params : pyval)
| ResultSavedTo (path : string)
| ExtractError (e : exception)
| SearchOk (query : string)
| SearchError (query : string) (e : exception).

Inductive event : Type :=
| Print (m : message)
| Mkdir (dir : string)
| Open (path : string)
| Write (path : string) (content : payload).

(** ** Effects *)

(** A computation emits events in order and then returns or raises. *)
Definition M (A : Type) : Type := (list event * result A)%type.

Definition ret {A : Type} (a : A) : M A := ([], Returned a).

Definition bind {A B : Type} (m : M A) (k : A -> M B) : M B :=
  match m with
  | (t, Returned a) => let (t', r) := k a in (t ++ t', r)
  | (t, Raised e) => (t, Raised e)
  end.

Definition raise {A : Type} (e : exception) : M A := ([], Raised e).

Definition lift {A : Type} (r : result A) : M A := ([], r).

Definition emit (ev : event) : M unit := ([ev], Returned tt).

Definition print (m : message) : M unit := emit (Print m).

(** [try: body except Exception as e: handler e] *)
Definition try_except {A : Type} (body : M A) (handler : exception -> M A) : M A :=
  match body with
  | (t, Returned a) => (t, Returned a)
  | (t, Raised e) => let (t', r) := handler e in (t ++ t', r)
  end.

Notation "x <- m ;; k" := (bind m (fun x => k))
  (at level 61, m at next level, right associativity).
Notation "m ;; k" := (bind m (fun _ => k))
  (at level 61, right associativity).

(** [for x in l: body x] *)
Fixpoint for_each {A : Type} (l : list A) (body : A -> M unit) : M unit :=
  match l with
  | [] => ret tt
  | x :: rest => body x ;; for_each rest body
  end.

(** [[f x for x in l]] *)
Fixpoint comprehension {A B : Type} (f : A -> M B) (l : list A) : M (list B) :=
  match l with
  | [] => ret []
  | x :: rest => y <- f x ;; ys <- comprehension f rest ;; ret (y :: ys)
  end.

Definition trace {A : Type} (m : M A) : list event := fst m.
Definition outcome {A : Type} (m : M A) : result A := snd m.

(** The paths a trace creates, truncates or writes. *)
Definition touched (ev : event) : list string :=
  match ev with
  | Open path | Write path _ => [path]
  | _ => []
  end.

Definition files_touched (t : list event) : list string := flat_map touched t.

(** ** The client *)

Section Client.

Variable E : environment.

(** *** File-system and library primitives *)

(** [Path(dir).mkdir(exist_ok=True)] *)
Definition mkdir (dir : string) : M unit :=
  match mkdir_error E dir with
  | Some e => raise e
  | None => emit (Mkdir dir)
  end.

(** [open(path, 'w')]: the file exists and is empty afterwards. *)
Definition open_w (path : string) : M unit :=
  match open_error E path with
  | Some e => raise e
  | None => emit (Open path)
  end.

Definition write (path : string) (content : payload) : M unit :=
  match write_error E path with
  | Some e => raise e
  | None => emit (Write path content)
  end.

(** [json.dump(value, f, indent=2, ensure_ascii=False)].  The encoder
    streams its text into the file chunk by chunk: a value rejected at
    the top is rejected before the first chunk, while for a list, tuple or
    dict the opening bracket and the elements before the rejected one have
    been written when [TypeError] is raised. *)
Definition json_dump (value : pyval) (path : string) : M unit :=
  if Py.json_encodable value then write path (JsonText value)
  else
    (if Py.json_container value then write path (JsonPrefix value) else ret tt) ;;
    raise (Exception "TypeError" "Object is not JSON serializable").

(** [json.dumps(value, indent=2)], the text standing for the value. *)
Definition json_dumps (value : pyval) : M pyval :=
  if Py.json_encodable value then ret value
  else raise (Exception "TypeError" "Object is not JSON serializable").

(** [df.to_csv(path, index=False)] and
    [df.to_excel(path, index=False, engine='openpyxl')] *)
Definition to_csv (df : DataFrame) (path : string) : M unit :=
  open_w path ;; write path (CsvTable df).

Definition to_excel (df : DataFrame) (path : string) : M unit :=
  open_w path ;; write path (ExcelSheet df).

(** Truth value of a value that is a string or [None]. *)
Definition text_truthy (text_content : option string) : bool :=
  match text_content with
  | Some s => negb (String.eqb s "")
  | None => false
  end.

(** *** Session manager *)

(** [FirecrawlMCPClient.list_resources] *)
Definition list_resources : M pyval :=
  try_except
    (resources <- lift (session_list_resources E) ;;
     print AvailableResources ;;
     listed <- lift (Py.getattr resources "resources") ;;
     items <- lift (Py.iterate listed) ;;
     for_each items (fun resource =>
       uri <- lift (Py.getattr resource "uri") ;;
       name <- lift (Py.getattr resource "name") ;;
       print (ResourceLine uri name)) ;;
     ret listed)
    (fun e =>
       if Py.contains "Method not found" (exc_message e)
       then print ResourcesNotSupported ;; ret (PList [])
       else print (ErrorListingResources e) ;; ret (PList [])).

(** *** Persistence helpers *)

(** The name [save_to_file] generates when it is given none. *)
Definition generated_filename : string :=
  let timestamp := Datetime.strftime_Ymd_HMS (now E) in
  ("firecrawl_result_" ++ timestamp)%string.

(** [FirecrawlMCPClient.save_to_file]; the result is the pair
    [(json_path, md_path or None)]. *)
Definition save_to_file (data : pyval) (filename : option string)
  (output_dir : string) : M (string * option string) :=
  mkdir output_dir ;;
  let filename :=
    match filename with
    | None => generated_filename
    | Some given => given
    end in
  let json_path := Path.joinpath output_dir (filename ++ ".json")%string in
  try_except
    (let serializable_data :=
       if Py.has_dict data then _make_serializable data else data in
     open_w json_path ;;
     json_dump serializable_data json_path ;;
     print (SavedJson json_path))
    (fun e => print (ErrorSavingJson e)) ;;
  text_content <- lift (_extract_text_content data) ;;
  let md_path := Path.joinpath output_dir (filename ++ ".md")%string in
  match text_content with
  | Some text =>
      if text_truthy text_content then
        try_except
          (open_w md_path ;;
           write md_path (PlainText text) ;;
           print (SavedMarkdown md_path))
          (fun e => print (ErrorSavingMarkdown e))
      else ret tt
  | None => ret tt
  end ;;
  ret (json_path, if text_truthy text_content then Some md_path else None).

(** [FirecrawlMCPClient.save_to_table]; a [filename] of [None] comes
    from [firecrawl_extract] and is formatted as the text [None]. *)
Definition save_to_table (result : pyval) (filename : option string)
  (format : string) : M unit :=
  if negb (Py.hasattr result "content")
     || negb (match Py.getattr result "content" with
              | Returned content => Py.truthy content
              | Raised _ => false
              end)
  then print NoContentToSave
  else
    try_except
      (content <- lift (Py.getattr result "content") ;;
       items <- lift (Py.iterate content) ;;
       data <- comprehension (fun item => lift (Py.getattr item "text")) items ;;
       df <- lift (pd_DataFrame E data) ;;
       if String.eqb format "csv" then
         to_csv df (Str.format_opt filename ++ ".csv")%string ;;
         print (SavedTable (Str.format_opt filename) format)
       else if String.eqb format "excel" then
         to_excel df (Str.format_opt filename ++ ".xlsx")%string ;;
         print (SavedTable (Str.format_opt filename) format)
       else
         print (UnsupportedFormat format))
      (fun e => print (FailedToSaveTable e)).

(** *** Operation facade *)

(** The dict display [{key: value, **kwargs}]. *)
Definition tool_params (key : string) (value : pyval)
  (kwargs : list (string * pyval)) : pyval :=
  PDict (fold_left (fun d kv => Py.setitem d (fst kv) (snd kv)) kwargs
                   [(PStr key, value)]).

(** The file name derived from a URL. *)
Definition url_filename (url : string) : string :=
  Str.replace (Str.replace (Str.replace (Str.replace url "https://" "")
                                        "http://" "") "/" "_") "." "_".

Definition default_output_dir : string := "output".

(** [FirecrawlMCPClient.crawl_url] *)
Definition crawl_url (url : string) (save : bool) (filename : option string)
  (kwargs : list (string * pyval)) : M pyval :=
  try_except
    (result <- lift (session_call_tool E "crawl_url"
                       (tool_params "url" (PStr url) kwargs)) ;;
     print (CrawlOk url) ;;
     (if save then
        let filename :=
          match filename with
          | None => ("crawl_" ++ url_filename url)%string
          | Some given => given
          end in
        _ <- save_to_file result (Some filename) default_output_dir ;; ret tt
      else ret tt) ;;
     ret result)
    (fun e => print (CrawlError url e) ;; ret PNone).

(** The diagnostic lines [firecrawl_scrape] prints about the result. *)
Definition describe_result (result : pyval) : M unit :=
  print (RawResultType result) ;;
  print (RawResult result) ;;
  (if Py.hasattr result "content" then
     content <- lift (Py.getattr result "content") ;;
     print (ContentType content) ;;
     if Py.isinstance_list content then
       print (ContentLength (List.length (Py.iter content))) ;;
       for_each (combine (seq 0 3) (firstn 3 (Py.iter content)))
         (fun numbered =>
            print (ContentItemType (fst numbered) (snd numbered)) ;;
            print (ContentItem (fst numbered) (snd numbered)))
     else print (ContentValue content)
   else ret tt) ;;
  (if Py.hasattr result "data" then
     value <- lift (Py.getattr result "data") ;; print (ResultData value)
   else ret tt) ;;
  (if Py.hasattr result "results" then
     value <- lift (Py.getattr result "results") ;; print (ResultResults value)
   else ret tt) ;;
  (if Py.hasattr result "text" then
     value <- lift (Py.getattr result "text") ;;
     shown <- lift (Py.slice_to 500 value) ;;
     print (ResultText shown)
   else ret tt).

(** [FirecrawlMCPClient.firecrawl_scrape] *)
Definition firecrawl_scrape (url : string) (save : bool)
  (filename : option string) (kwargs : list (string * pyval)) : M pyval :=
  try_except
    (let params := tool_params "url" (PStr url) kwargs in
     print (ScrapeParams params) ;;
     result <- lift (session_call_tool E "firecrawl_scrape" params) ;;
     describe_result result ;;
     print (ScrapeOk url) ;;
     (if save then
        let filename :=
          match filename with
          | None => ("scrape_" ++ url_filename url)%string
          | Some given => given
          end in
        _ <- save_to_file result (Some filename) default_output_dir ;; ret tt
      else ret tt) ;;
     ret result)
    (fun e =>
       print (ScrapeError url e) ;;
       print (ExceptionType e) ;;
       print (Traceback e) ;;
       ret PNone).

(** [FirecrawlMCPClient.firecrawl_extract] *)
Definition firecrawl_extract (urls prompt system_prompt schema : pyval)
  (allow_external_links enable_web_search include_subdomains : bool)
  (save save_as_excel : bool) (filename : option string) : M pyval :=
  try_except
    (let params :=
       PDict [(PStr "urls", urls);
              (PStr "prompt", prompt);
              (PStr "systemPrompt", system_prompt);
              (PStr "schema", schema);
              (PStr "allowExternalLinks", PBool allow_external_links);
              (PStr "enableWebSearch", PBool enable_web_search);
              (PStr "includeSubdomains", PBool include_subdomains)] in
     shown <- json_dumps params ;;
     print (ExtractParams shown) ;;
     result <- lift (session_call_tool E "firecrawl_extract" params) ;;
     (if save_as_excel then save_to_table result filename "excel" else ret tt) ;;
     (if save then
        let filename :=
          if text_truthy filename then Str.format_opt filename
          else ("extract_"
                ++ Str.replace (Datetime.isoformat (now E)) ":" "_"
                ++ ".json")%string in
        let filepath := resolve E filename in
        _ <- save_to_file result (Some filepath) default_output_dir ;;
        print (ResultSavedTo filepath)
      else ret tt) ;;
     ret result)
    (fun e =>
       print (ExtractError e) ;;
       print (Traceback e) ;;
       ret PNone).

(** [FirecrawlMCPClient.search] *)
Definition search (query : string) (save : bool) (filename : option string)
  (kwargs : list (string * pyval)) : M pyval :=
  try_except
    (result <- lift (session_call_tool E "search"
                       (tool_params "query" (PStr query) kwargs)) ;;
     print (SearchOk query) ;;
     (if save then
        let filename :=
          match filename with
          | None => ("search_" ++ Str.replace query " " "_")%string
          | Some given => given
          end in
        _ <- save_to_file result (Some filename) default_output_dir ;; ret tt
      else ret tt) ;;
     ret result)
    (fun e => print (SearchError query e) ;; ret PNone).

End Client.

(** ** Session set-up *)

(** The places [__init__] looks for the server script, in this order. *)
Definition possible_paths : list string :=
  ["./firecrawl/apps/mcp-server/dist/index.js";
   "../firecrawl/apps/mcp-server/dist/index.js";
   "./dist/index.js"].

(** The loop [for path in possible_paths: if Path(path).exists(): ...
    break]. *)
Fixpoint first_existing (path_exists : string -> bool) (paths : list string)
  : option string :=
  match paths with
  | [] => None
  | path :: rest =>
      if path_exists path then Some path else first_existing path_exists rest
  end.

Record StdioServerParameters : Type := {
  command : string;
  args : list string;
  env : list (string * string)
}.

(** [FirecrawlMCPClient.__init__]: the parameters stored in
    [self.server_params]. *)
Definition __init__ (path_exists : string -> bool)
  (environ : list (string * string)) (server_path : option string)
  : result StdioServerParameters :=
  let server_path :=
    match server_path with
    | None => first_existing path_exists possible_paths
    | Some given => Some given
    end in
  match server_path with
  | None =>
      Raised (Exception "FileNotFoundError"
                "Could not find Firecrawl MCP server. Please provide the path manually.")
  | Some path => Returned {| command := "node"; args := [path]; env := environ |}
  end.

(** Which of the attributes [stdio_client] and [session] the client object
    has. *)
Record client : Type := { has_stdio_client : bool; has_session : bool }.

Definition fresh_client : client :=
  {| has_stdio_client := false; has_session := false |}.

(** The answers of the protocol library to the calls of the session
    manager. *)
Record transport : Type := {
  stdio_enter_error : option exception;
  session_enter_error : option exception;
  initialize_error : option exception;
  session_exit_error : option exception;
  stdio_exit_error : option exception;
  session_list_tools : result pyval
}.

Inductive session_line : Type :=
| Connected
| Disconnected
| AvailableTools
| ToolLine (name description : pyval)
| ErrorListingTools (e : exception).

Inductive session_event : Type :=
| StdioEnter
| SessionEnter
| Initialize
| SessionExit
| StdioExit
| Line (l : session_line).

(** [FirecrawlMCPClient.connect]: the events, the client afterwards and the
    outcome. *)
Definition connect (T : transport) (self : client)
  : list session_event * client * result unit :=
  let self := {| has_stdio_client := true; has_session := has_session self |} in
  match stdio_enter_error T with
  | Some e => ([], self, Raised e)
  | None =>
      let self := {| has_stdio_client := true; has_session := true |} in
      match session_enter_error T with
      | Some e => ([StdioEnter], self, Raised e)
      | None =>
          match initialize_error T with
          | Some e => ([StdioEnter; SessionEnter], self, Raised e)
          | None =>
              ([StdioEnter; SessionEnter; Initialize; Line Connected],
               self, Returned tt)
          end
      end
  end.

(** [FirecrawlMCPClient.disconnect] *)
Definition disconnect (T : transport) (self : client)
  : list session_event * client * result unit :=
  let after_session :=
    if has_session self then
      match session_exit_error T with
      | Some e => ([], Raised e)
      | None => ([SessionExit], Returned tt)
      end
    else ([], Returned tt) in
  match after_session with
  | (events, Raised e) => (events, self, Raised e)
  | (events, Returned _) =>
      if has_stdio_client self then
        match stdio_exit_error T with
        | Some e => (events, self, Raised e)
        | None => (events ++ [StdioExit; Line Disconnected], self, Returned tt)
        end
      else (events ++ [Line Disconnected], self, Returned tt)
  end.

(** The lines [list_tools] prints for the tools, one after the other,
    until reading a [name] or a [description] raises. *)
Fixpoint tool_lines (tools : list pyval) : list session_event * result unit :=
  match tools with
  | [] => ([], Returned tt)
  | tool :: rest =>
      match Py.getattr tool "name" with
      | Raised e => ([], Raised e)
      | Returned name =>
          match Py.getattr tool "description" with
          | Raised e => ([], Raised e)
          | Returned description =>
              let (events, r) := tool_lines rest in
              (Line (ToolLine name description) :: events, r)
          end
      end
  end.

(** [FirecrawlMCPClient.list_tools] *)
Definition list_tools (T : transport) : list session_event * pyval :=
  match session_list_tools T with
  | Raised e => ([Line (ErrorListingTools e)], PList [])
  | Returned tools =>
      match Py.getattr tools "tools" with
      | Raised e => ([Line AvailableTools; Line (ErrorListingTools e)], PList [])
      | Returned listed =>
          match Py.iterate listed with
          | Raised e => ([Line AvailableTools; Line (ErrorListingTools e)], PList [])
          | Returned items =>
              match tool_lines items with
              | (events, Returned _) => (Line AvailableTools :: events, listed)
              | (events, Raised e) =>
                  (Line AvailableTools :: events ++ [Line (ErrorListingTools e)],
                   PList [])
              end
          end
      end
  end.

(** ** Vocabulary of the properties *)

(** What the text reduction does with the value of a [content] field. *)
Definition descend (content : pyval) (level : nat) (text_parts : list pyval)
  : list pyval :=
  if Py.isinstance_str content then text_parts ++ [content]
  else if Py.has_iter content then
    fold_left (fun parts item => extract_text item (S level) parts)
              (Py.iter content) text_parts
  else text_parts.

(** A value with no [text] attribute and no string anywhere in it: not in
    a sequence, not as a key or value of a mapping, not as the value of an
    attribute. *)
Fixpoint text_free (v : pyval) : bool :=
  match v with
  | PStr _ => false
  | PList items | PTuple items => forallb text_free items
  | PDict entries =>
      forallb (fun kv => text_free (fst kv) && text_free (snd kv)) entries
  | PObj attrs =>
      forallb (fun kv => negb (String.eqb (fst kv) "text") && text_free (snd kv))
              attrs
  | PNone | PBool _ | PInt _ | PBytes _ => true
  end.

(** A value with no mapping and no attribute-bearing object in it. *)
Fixpoint mapping_free (v : pyval) : bool :=
  match v with
  | PList items | PTuple items => forallb mapping_free items
  | PDict _ | PObj _ => false
  | PNone | PBool _ | PInt _ | PStr _ | PBytes _ => true
  end.

(** The fragments the text reduction finds in a value, in traversal
    order. *)
Definition fragments (data : pyval) : list pyval := extract_text data 0 [].

(** [k] blank-line separators in a row. *)
Fixpoint separators (k : nat) : string :=
  match k with
  | O => ""
  | S k' => (blank_line ++ separators k')%string
  end.

(** The paths [save_to_file] derives from its arguments. *)
Definition json_path_of (E : environment) (filename : option string)
  (output_dir : string) : string :=
  Path.joinpath output_dir
    (match filename with None => generated_filename E | Some given => given end
     ++ ".json")%string.

Definition md_path_of (E : environment) (filename : option string)
  (output_dir : string) : string :=
  Path.joinpath output_dir
    (match filename with None => generated_filename E | Some given => given end
     ++ ".md")%string.

(** A response without a usable [content] field: the field is missing, or
    its value is empty (an empty list or tuple, and any other false
    value). *)
Definition no_content (result : pyval) : Prop :=
  Py.hasattr result "content" = false \/
  exists content,
    Py.getattr result "content" = Returned content /\ Py.truthy content = false.

Definition unsupported (format : string) : Prop :=
  format <> "csv" /\ format <> "excel".

(** A response with a usable [content] field. *)
Definition has_content (result : pyval) : Prop :=
  exists content,
    Py.getattr result "content" = Returned content /\ Py.truthy content = true.

(** [[item.text for item in items]] as a value: the texts, or the first
    error. *)
Fixpoint texts_of (items : list pyval) : result (list pyval) :=
  match items with
  | [] => Returned []
  | item :: rest =>
      match Py.getattr item "text" with
      | Raised e => Raised e
      | Returned text =>
          match texts_of rest with
          | Raised e => Raised e
          | Returned texts => Returned (text :: texts)
          end
      end
  end.

(** The frame [save_to_table] builds from a response before it looks at
    the format, or the error that building it raises. *)
Definition table_frame (E : environment) (response : pyval) : result DataFrame :=
  match Py.getattr response "content" with
  | Raised e => Raised e
  | Returned content =>
      match Py.iterate content with
      | Raised e => Raised e
      | Returned items =>
          match texts_of items with
          | Raised e => Raised e
          | Returned data => pd_DataFrame E data
          end
      end
  end.

(** The four facade operations with their arguments. *)
Inductive operation : Type :=
| CrawlUrl (url : string) (save : bool) (filename : option string)
    (kwargs : list (string * pyval))
| FirecrawlScrape (url : string) (save : bool) (filename : option string)
    (kwargs : list (string * pyval))
| FirecrawlExtract (urls prompt system_prompt schema : pyval)
    (allow_external_links enable_web_search include_subdomains : bool)
    (save save_as_excel : bool) (filename : option string)
| Search (query : string) (save : bool) (filename : option string)
    (kwargs : list (string * pyval)).

Definition invoke (E : environment) (op : operation) : M pyval :=
  match op with
  | CrawlUrl url save filename kwargs => crawl_url E url save filename kwargs
  | FirecrawlScrape url save filename kwargs =>
      firecrawl_scrape E url save filename kwargs
  | FirecrawlExtract urls prompt system_prompt schema a w s save excel filename =>
      firecrawl_extract E urls prompt system_prompt schema a w s save excel filename
  | Search query save filename kwargs => search E query save filename kwargs
  end.

(** The remote tool an operation names and the parameters it sends. *)
Definition request (op : operation) : string * pyval :=
  match op with
  | CrawlUrl url _ _ kwargs => ("crawl_url", tool_params "url" (PStr url) kwargs)
  | FirecrawlScrape url _ _ kwargs =>
      ("firecrawl_scrape", tool_params "url" (PStr url) kwargs)
  | FirecrawlExtract urls prompt system_prompt schema a w s _ _ _ =>
      ("firecrawl_extract",
       PDict [(PStr "urls", urls);
              (PStr "prompt", prompt);
              (PStr "systemPrompt", system_prompt);
              (PStr "schema", schema);
              (PStr "allowExternalLinks", PBool a);
              (PStr "enableWebSearch", PBool w);
              (PStr "includeSubdomains", PBool s)])
  | Search query _ _ kwargs => ("search", tool_params "query" (PStr query) kwargs)
  end.

(** pandas builds a one-column frame from a flat list of strings. *)
Definition pandas_flat (E : environment) : Prop :=
  forall data,
    forallb Py.isinstance_str data = true ->
    pd_DataFrame E data = Returned (one_column data).

(** Sample data: a clock reading, an environment in which nothing fails
    and the session answers [response], and the response of the
    specification's example. *)
Definition sample_clock : datetime :=
  {| year := 2025; month := 3; day := 7;
     hour := 9; minute := 5; second := 0; microsecond := 12 |}.

Definition quiet_environment (clock : datetime) (response : result pyval)
  : environment :=
  {| now := clock;
     resolve := fun path => path;
     mkdir_error := fun _ => None;
     open_error := fun _ => None;
     write_error := fun _ => None;
     pd_DataFrame := fun data => Returned (one_column data);
     session_call_tool := fun _ _ => response;
     session_list_resources := response |}.

Definition text_item (text : string) : pyval := PObj [("text", PStr text)].

Definition two_items : pyval :=
  PObj [("content", PList [text_item "A"; text_item "B"])].

(** The file [save_to_table] writes for a supported format, and what it
    holds. *)
Definition table_path (filename : option string) (format : string) : string :=
  (Str.format_opt filename ++ (if String.eqb format "csv" then ".csv" else ".xlsx"))%string.

Definition table_payload (format : string) (df : DataFrame) : payload :=
  if String.eqb format "csv" then CsvTable df else ExcelSheet df.

(** A value with no [bytes] anywhere in it. *)
Fixpoint bytes_free (v : pyval) : bool :=
  match v with
  | PBytes _ => false
  | PList items | PTuple items => forallb bytes_free items
  | PDict entries =>
      forallb (fun kv => bytes_free (fst kv) && bytes_free (snd kv)) entries
  | PObj attrs => forallb (fun kv => bytes_free (snd kv)) attrs
  | PNone | PBool _ | PInt _ | PStr _ => true
  end.

(** Whether the character occurs in the string. *)
Fixpoint has_char (c : ascii) (s : string) : bool :=
  match s with
  | EmptyString => false
  | String x rest => Ascii.eqb x c || has_char c rest
  end.

Definition public (attr : string * pyval) : bool :=
  negb (startswith (fst attr) "_").

(** An environment in which the session answers [response] and the file
    system refuses what [refused] names. *)
Definition refusing_environment (refused : string -> option exception)
  (response : result pyval) : environment :=
  {| now := sample_clock;
     resolve := fun path => path;
     mkdir_error := refused;
     open_error := refused;
     write_error := refused;
     pd_DataFrame := fun data => Returned (one_column data);
     session_call_tool := fun _ _ => response;
     session_list_resources := response |}.

Definition quiet_transport (tools : result pyval) : transport :=
  {| stdio_enter_error := None;
     session_enter_error := None;
     initialize_error := None;
     session_exit_error := None;
     stdio_exit_error := None;
     session_list_tools := tools |}.

(** A computation that touches no file. *)
Definition quiet {A : Type} (m : M A) : Prop := files_touched (trace m) = [].

(** * Properties *)

(** ** Reasoning about values *)

(** Structural induction on values, through the nested lists. *)
Lemma pyval_induction (P : pyval -> Prop)
  (HNone : P PNone)
  (HBool : forall b, P (PBool b))
  (HInt : forall z, P (PInt z))
  (HStr : forall s, P (PStr s))
  (HBytes : forall bs, P (PBytes bs))
  (HList : forall items, Forall P items -> P (PList items))
  (HTuple : forall items, Forall P items -> P (PTuple items))
  (HDict : forall entries,
      Forall (fun kv => P (fst kv) /\ P (snd kv)) entries -> P (PDict entries))
  (HObj : forall attrs, Forall (fun kv => P (snd kv)) attrs -> P (PObj attrs)) :
  forall v, P v.
Proof.
  fix IH 1.
  intros [ | b | z | s | bs | items | items | entries | attrs ].
  - exact HNone.
  - apply HBool.
  - apply HInt.
  - apply HStr.
  - apply HBytes.
  - apply HList. induction items as [ | x xs IHxs ]; constructor; [ apply IH | exact IHxs ].
  - apply HTuple. induction items as [ | x xs IHxs ]; constructor; [ apply IH | exact IHxs ].
  - apply HDict. induction entries as [ | [k v] xs IHxs ]; constructor;
      [ split; apply IH | exact IHxs ].
  - apply HObj. induction attrs as [ | [k v] xs IHxs ]; constructor;
      [ apply IH | exact IHxs ].
Qed.

Lemma fold_left_map_fst (f : list pyval -> pyval -> list pyval)
  (entries : list (pyval * pyval)) (parts : list pyval) :
  fold_left (fun acc kv => f acc (fst kv)) entries parts
  = fold_left f (map fst entries) parts.
Proof.
  revert parts. induction entries as [ | kv rest IH ]; intros parts; simpl.
  - reflexivity.
  - apply IH.
Qed.

Lemma fold_left_bytes (level : nat) (bs : list Byte.byte) (parts : list pyval) :
  fold_left (fun acc item => extract_text item (S level) acc)
            (map Py.byte_value bs) parts = parts.
Proof.
  induction bs as [ | b rest IH ]; simpl; [ reflexivity | exact IH ].
Qed.

(** The equation of [extract_text], branch by branch as the source tests
    them: [text], then [content], then iteration, then a bare string. *)
Lemma extract_text_eq (obj : pyval) (level : nat) (text_parts : list pyval) :
  extract_text obj level text_parts =
  if Py.hasattr obj "text" then
    match Py.getattr obj "text" with
    | Returned text => text_parts ++ [text]
    | Raised _ => text_parts
    end
  else if Py.hasattr obj "content" then
    match Py.getattr obj "content" with
    | Returned content => descend content level text_parts
    | Raised _ => text_parts
    end
  else if Py.has_iter obj && negb (Py.isinstance_str obj) then
    fold_left (fun parts item => extract_text item (S level) parts)
              (Py.iter obj) text_parts
  else if Py.isinstance_str obj then text_parts ++ [obj]
  else text_parts.
Proof.
  destruct obj as [ | b | z | s | bs | items | items | entries | attrs ];
    try reflexivity.
  - simpl. symmetry. apply fold_left_bytes.
  - simpl. apply (fold_left_map_fst (fun acc k => extract_text k (S level) acc)).
  - unfold Py.hasattr, Py.getattr. simpl extract_text.
    destruct (Py.lookup "text" attrs) as [ text | ]; [ reflexivity | ].
    induction attrs as [ | [name value] rest IH ]; [ reflexivity | ].
    cbn [Py.lookup].
    destruct (String.eqb name "content"); [ | exact IH ].
    destruct value; unfold descend; simpl; try reflexivity.
    + symmetry. apply fold_left_bytes.
    + apply (fold_left_map_fst (fun acc k => extract_text k (S level) acc)).
Qed.

(** [text_parts] is only ever appended to. *)
Lemma extract_text_appends :
  forall obj level text_parts,
    extract_text obj level text_parts = text_parts ++ extract_text obj level [].
Proof.
  assert (Hfold : forall (A : Type) (f : A -> nat -> list pyval -> list pyval)
                         (l : list A) level,
             Forall (fun x => forall lv parts, f x lv parts = parts ++ f x lv []) l ->
             forall parts,
               fold_left (fun acc x => f x level acc) l parts
               = parts ++ fold_left (fun acc x => f x level acc) l []).
  { intros A f l level Hall. induction Hall as [ | x rest Hx _ IH ]; intros parts; simpl.
    - now rewrite app_nil_r.
    - rewrite IH. rewrite (IH (f x level [])). rewrite (Hx level parts).
      now rewrite app_assoc. }
  induction obj as [ | b | z | s | bs | items IH | items IH | entries IH | attrs IH ]
    using pyval_induction; intros level text_parts; simpl;
    try (now rewrite app_nil_r); try reflexivity.
  - apply (Hfold pyval extract_text items (S level) IH).
  - apply (Hfold pyval extract_text items (S level) IH).
  - apply (Hfold (pyval * pyval)%type (fun kv => extract_text (fst kv)) entries (S level)).
    eapply Forall_impl; [ | exact IH ]. intros kv [Hk _]. exact Hk.
  - destruct (Py.lookup "text" attrs); [ reflexivity | ].
    induction IH as [ | [name value] rest Hvalue _ IHrest ]; simpl.
    + now rewrite app_nil_r.
    + destruct (String.eqb name "content"); [ | exact IHrest ].
      simpl in Hvalue.
      pose proof (Hvalue level text_parts) as Hv.
      destruct value; simpl in Hv |- *; try (now rewrite app_nil_r); try reflexivity;
        exact Hv.
Qed.

Lemma getattr_hasattr (obj : pyval) (name : string) :
  Py.hasattr obj name = true <-> exists v, Py.getattr obj name = Returned v.
Proof.
  unfold Py.hasattr, Py.getattr.
  destruct obj; try (split; [ discriminate | intros [ v Hv ]; discriminate ]).
  destruct (Py.lookup name attrs) as [ v | ].
  - split; [ now exists v | reflexivity ].
  - split; [ discriminate | intros [ v Hv ]; discriminate ].
Qed.

Lemma getattr_raises (obj : pyval) (name : string) (e : exception) :
  Py.getattr obj name = Raised e -> e = Exception "AttributeError" name.
Proof.
  unfold Py.getattr.
  destruct obj; try (intros H; now injection H).
  destruct (Py.lookup name attrs); [ discriminate | intros H; now injection H ].
Qed.

(** ** Serializable-form reduction *)

(** C9: a plain mapping is reduced to the list of its reduced keys, in
    order; the values play no part, so replacing them by anything else
    leaves the result unchanged. *)
Theorem make_serializable_dict_keys :
  forall entries : list (pyval * pyval),
    _make_serializable (PDict entries)
    = PList (map _make_serializable (map fst entries))
    /\ forall f : pyval -> pyval,
         _make_serializable (PDict (map (fun kv => (fst kv, f (snd kv))) entries))
         = _make_serializable (PDict entries).
Proof.
  intros entries. split.
  - simpl. now rewrite map_map.
  - intros f. simpl. rewrite map_map. reflexivity.
Qed.

(** C1: the reduction is not idempotent.  An object with one public
    attribute becomes a mapping, and reducing that mapping again yields
    the list of its keys, which differs from the mapping. *)
Theorem make_serializable_twice_differs :
  let obj := PObj [("a", PInt 1)] in
  _make_serializable obj = PDict [(PStr "a", PInt 1)]
  /\ _make_serializable (_make_serializable obj) = PList [PStr "a"]
  /\ _make_serializable (_make_serializable obj) <> _make_serializable obj.
Proof.
  cbv zeta. repeat split; try reflexivity.
  simpl. discriminate.
Qed.

(** X30: on a value without mappings and objects the reduction is
    idempotent: the mapping case is the only one that is not. *)
Lemma make_serializable_idempotent_mapping_free :
  forall v, mapping_free v = true ->
    _make_serializable (_make_serializable v) = _make_serializable v.
Proof.
  induction v as [ | b | z | s | bs | items IH | items IH | entries IH | attrs IH ]
    using pyval_induction; intros Hfree; simpl in *; try reflexivity;
    try discriminate.
  - f_equal. rewrite map_map.
    induction IH as [ | x rest Hx _ IHrest ]; simpl in *; [ reflexivity | ].
    apply andb_true_iff in Hfree as [Hx' Hrest].
    now rewrite (Hx Hx'), (IHrest Hrest).
  - f_equal. rewrite map_map.
    induction IH as [ | x rest Hx _ IHrest ]; simpl in *; [ reflexivity | ].
    apply andb_true_iff in Hfree as [Hx' Hrest].
    now rewrite (Hx Hx'), (IHrest Hrest).
Qed.

(** ** Text reduction *)

(** C2: at a value that exposes both a [text] and a [content] field, the
    text reduction appends the value of [text] and nothing else; the
    [content] field is not looked at. *)
Theorem extract_text_text_shadows_content :
  forall (obj text content : pyval) (level : nat) (text_parts : list pyval),
    Py.getattr obj "text" = Returned text ->
    Py.getattr obj "content" = Returned content ->
    extract_text obj level text_parts = text_parts ++ [text].
Proof.
  intros obj text content level text_parts Htext _.
  rewrite extract_text_eq.
  unfold Py.hasattr, Py.getattr in *.
  destruct obj; try discriminate.
  destruct (Py.lookup "text" attrs); [ | discriminate ].
  now inversion Htext.
Qed.

Lemma extract_text_text_shadows_content_witness :
  let obj := PObj [("text", PStr "T"); ("content", PList [PStr "hidden"])] in
  extract_text obj 0 [] = [PStr "T"].
Proof.
  cbv zeta.
  apply (extract_text_text_shadows_content _ (PStr "T") (PList [PStr "hidden"]));
    reflexivity.
Defined.

(** Nothing is appended for a value without text. *)
Lemma extract_text_text_free :
  forall v, text_free v = true ->
  forall level text_parts, extract_text v level text_parts = text_parts.
Proof.
  induction v as [ | b | z | s | bs | items IH | items IH | entries IH | attrs IH ]
    using pyval_induction; intros Hfree level text_parts; simpl in *;
    try reflexivity; try discriminate.
  - revert text_parts. induction IH as [ | x rest Hx _ IHrest ]; intros text_parts;
      simpl in *; [ reflexivity | ].
    apply andb_true_iff in Hfree as [Hx' Hrest].
    rewrite (Hx Hx'). now apply IHrest.
  - revert text_parts. induction IH as [ | x rest Hx _ IHrest ]; intros text_parts;
      simpl in *; [ reflexivity | ].
    apply andb_true_iff in Hfree as [Hx' Hrest].
    rewrite (Hx Hx'). now apply IHrest.
  - revert text_parts. induction IH as [ | [k v] rest [Hk _] _ IHrest ];
      intros text_parts; simpl in *; [ reflexivity | ].
    apply andb_true_iff in Hfree as [Hkv Hrest].
    apply andb_true_iff in Hkv as [Hk' _].
    rewrite (Hk Hk'). now apply IHrest.
  - assert (Hnone : Py.lookup "text" attrs = None).
    { clear IH. induction attrs as [ | [k v] rest IHrest ]; simpl in *; [ reflexivity | ].
      apply andb_true_iff in Hfree as [Hkv Hrest].
      apply andb_true_iff in Hkv as [Hk _].
      apply negb_true_iff in Hk. rewrite Hk. now apply IHrest. }
    rewrite Hnone.
    induction IH as [ | [k v] rest Hv _ IHrest ]; simpl in *; [ reflexivity | ].
    apply andb_true_iff in Hfree as [Hkv Hrest].
    apply andb_true_iff in Hkv as [Hk Hv'].
    apply negb_true_iff in Hk. rewrite Hk in Hnone.
    destruct (String.eqb k "content").
    + specialize (Hv Hv' level text_parts).
      destruct v; simpl in *; try reflexivity; try discriminate; exact Hv.
    + now apply IHrest.
Qed.

(** ** Paths *)

Lemma append_cancel_l (s a b : string) :
  (s ++ a)%string = (s ++ b)%string -> a = b.
Proof.
  induction s as [ | c rest IH ]; simpl; intros H; [ exact H | ].
  injection H as H. now apply IH.
Qed.

Lemma append_assoc (a b c : string) :
  ((a ++ b) ++ c)%string = (a ++ (b ++ c))%string.
Proof.
  induction a as [ | x rest IH ]; simpl; [ reflexivity | now rewrite IH ].
Qed.

Lemma has_char_app (c : ascii) (a b : string) :
  has_char c (a ++ b) = has_char c a || has_char c b.
Proof.
  induction a as [ | x rest IH ]; simpl; [ reflexivity | ].
  now rewrite IH, orb_assoc.
Qed.

Lemma last_cons {A : Type} (x : A) (l : list A) (d : A) :
  l <> [] -> last (x :: l) d = last l d.
Proof.
  destruct l; [ congruence | reflexivity ].
Qed.

Lemma last_in {A : Type} (l : list A) (d : A) : l <> [] -> In (last l d) l.
Proof.
  induction l as [ | x rest IH ]; [ congruence | intros _ ].
  destruct rest as [ | y rest' ]; [ now left | ].
  right. apply IH. discriminate.
Qed.

Lemma last_filter {A : Type} (keep : A -> bool) (l : list A) (d : A) :
  l <> [] -> keep (last l d) = true -> last (filter keep l) d = last l d.
Proof.
  induction l as [ | x rest IH ]; [ congruence | intros _ Hkeep ].
  destruct rest as [ | y rest' ].
  - simpl in *. now rewrite Hkeep.
  - remember (y :: rest') as tail eqn:Htail.
    assert (Hrest : tail <> []) by (subst tail; discriminate).
    rewrite (last_cons x tail d Hrest) in *.
    specialize (IH Hrest Hkeep).
    simpl. destruct (keep x); [ | exact IH ].
    rewrite last_cons; [ exact IH | ].
    intros Hempty.
    pose proof (last_in tail d Hrest) as Hin.
    assert (Hfiltered : In (last tail d) (filter keep tail))
      by (apply filter_In; split; assumption).
    rewrite Hempty in Hfiltered. destruct Hfiltered.
Qed.

Lemma split_nonempty (p : string) : Path.split p <> [].
Proof.
  destruct p as [ | c rest ]; simpl; [ discriminate | ].
  destruct (Ascii.eqb c "/"); [ discriminate | ].
  destruct (Path.split rest); discriminate.
Qed.

Lemma split_slash (rest : string) :
  Path.split (String "/" rest) = EmptyString :: Path.split rest.
Proof.
  reflexivity.
Qed.

Lemma split_slashfree (s : string) :
  has_char "/" s = false -> Path.split s = [s].
Proof.
  induction s as [ | c rest IH ]; [ reflexivity | ].
  cbn [has_char Path.split]. intros H.
  apply orb_false_iff in H as [ Hc Hrest ].
  now rewrite Hc, (IH Hrest).
Qed.

Lemma split_app_slash (a b : string) :
  Path.split (a ++ String "/" b) = Path.split a ++ Path.split b.
Proof.
  induction a as [ | c rest IH ]; [ reflexivity | ].
  cbn [append Path.split]. rewrite IH.
  destruct (Ascii.eqb c "/"); [ reflexivity | ].
  pose proof (split_nonempty rest) as Hne.
  destruct (Path.split rest); [ congruence | reflexivity ].
Qed.

Lemma split_app_slashfree (f ext : string) :
  has_char "/" ext = false ->
  Path.split (f ++ ext)
  = removelast (Path.split f) ++ [(last (Path.split f) EmptyString ++ ext)%string].
Proof.
  intros Hext. induction f as [ | c rest IH ].
  - simpl. now apply split_slashfree.
  - cbn [append Path.split]. rewrite IH.
    pose proof (split_nonempty rest) as Hne.
    destruct (Path.split rest) as [ | h t ]; [ congruence | ].
    destruct (Ascii.eqb c "/").
    + destruct t; reflexivity.
    + destruct t; reflexivity.
Qed.

Lemma split_parts_slashfree (p : string) :
  Forall (fun part => has_char "/" part = false) (Path.split p).
Proof.
  induction p as [ | c rest IH ]; [ repeat constructor | ].
  cbn [Path.split]. destruct (Ascii.eqb c "/") eqn:Hc.
  - constructor; [ reflexivity | exact IH ].
  - destruct (Path.split rest) as [ | h t ]; [ repeat constructor; simpl; now rewrite Hc | ].
    inversion IH as [ | ? ? Hh Ht ]; subst.
    constructor; [ simpl; now rewrite Hc, Hh | exact Ht ].
Qed.

Lemma join_cons (part : string) (rest : list string) :
  rest <> [] ->
  Path.join (part :: rest) = (part ++ String "/" (Path.join rest))%string.
Proof.
  destruct rest; [ congruence | reflexivity ].
Qed.

Lemma split_join (parts : list string) :
  parts <> [] ->
  Forall (fun part => has_char "/" part = false) parts ->
  Path.split (Path.join parts) = parts.
Proof.
  induction parts as [ | part rest IH ]; [ congruence | intros _ Hfree ].
  inversion Hfree as [ | ? ? Hpart Hrest ]; subst.
  destruct rest as [ | next rest' ].
  - simpl. now apply split_slashfree.
  - rewrite join_cons by discriminate.
    rewrite split_app_slash, (split_slashfree part Hpart), IH;
      [ reflexivity | discriminate | exact Hrest ].
Qed.

Lemma basename_app (f ext : string) :
  has_char "/" ext = false ->
  Path.basename (f ++ ext) = (Path.basename f ++ ext)%string.
Proof.
  intros Hext. unfold Path.basename.
  rewrite (split_app_slashfree f ext Hext). apply last_last.
Qed.

Lemma basename_slashfree (s : string) :
  has_char "/" s = false -> Path.basename s = s.
Proof.
  intros H. unfold Path.basename. now rewrite (split_slashfree s H).
Qed.

Lemma basename_after_slash (a b : string) :
  Path.basename (a ++ String "/" b) = Path.basename b.
Proof.
  unfold Path.basename. rewrite split_app_slash.
  pose proof (split_nonempty b) as Hne.
  destruct (Path.split b) as [ | h t ] eqn:Hb; [ congruence | ].
  rewrite <- Hb.
  induction (Path.split a) as [ | x l IH ]; [ reflexivity | ].
  cbn [app]. rewrite last_cons; [ exact IH | ].
  rewrite Hb. now destruct l.
Qed.

Lemma basename_slash (b : string) :
  Path.basename (String "/" b) = Path.basename b.
Proof.
  exact (basename_after_slash EmptyString b).
Qed.

Lemma startswith_slash (p : string) :
  startswith p "/" = true -> exists rest, p = String "/" rest.
Proof.
  destruct p as [ | c rest ]; [ discriminate | ].
  cbn [startswith]. rewrite andb_true_r. intros H.
  apply Ascii.eqb_eq in H. subst c. now exists rest.
Qed.

Lemma endswith_slash_app (p : string) :
  Path.endswith_slash p = true -> exists q, p = (q ++ "/")%string.
Proof.
  induction p as [ | c rest IH ]; [ discriminate | ].
  cbn [Path.endswith_slash]. destruct rest as [ | c' rest' ].
  - intros H. apply Ascii.eqb_eq in H. subst c. now exists EmptyString.
  - intros H. destruct (IH H) as [ q Hq ]. exists (String c q).
    simpl. now rewrite Hq.
Qed.

Lemma basename_posix_join (dir name : string) :
  Path.basename (Path.posix_join dir name) = Path.basename name.
Proof.
  unfold Path.posix_join.
  destruct (Path.is_absolute name); [ reflexivity | ].
  destruct (String.eqb dir "") eqn:Hempty.
  - apply String.eqb_eq in Hempty. now subst dir.
  - cbn [orb]. destruct (Path.endswith_slash dir) eqn:Hslash.
    + destruct (endswith_slash_app dir Hslash) as [ q -> ].
      rewrite append_assoc. apply (basename_after_slash q name).
    + apply (basename_after_slash dir name).
Qed.

Lemma basename_splitroot (p : string) :
  Path.basename (snd (Path.splitroot p)) = Path.basename p
  /\ (fst (Path.splitroot p) = "" \/ fst (Path.splitroot p) = "/"
      \/ fst (Path.splitroot p) = "//").
Proof.
  unfold Path.splitroot.
  destruct (startswith p "///") eqn:H3;
    [ | destruct (startswith p "//") eqn:H2;
        [ | destruct (startswith p "/") eqn:H1 ] ];
    cbn [fst snd]; (split; [ | auto ]).
  - destruct p as [ | c rest ]; [ discriminate | ].
    cbn [startswith] in H3. apply andb_true_iff in H3 as [ Hc _ ].
    apply Ascii.eqb_eq in Hc. subst c.
    cbn [Path.drop]. symmetry. apply (basename_after_slash EmptyString rest).
  - destruct p as [ | c [ | c' rest ] ]; try discriminate.
    + cbn [startswith] in H2. now rewrite andb_false_r in H2.
    + cbn [startswith] in H2.
      apply andb_true_iff in H2 as [ Hc H2 ]. apply andb_true_iff in H2 as [ Hc' _ ].
      apply Ascii.eqb_eq in Hc, Hc'. subst c c'.
      cbn [Path.drop]. symmetry. apply (basename_after_slash "/" rest).
  - destruct (startswith_slash p H1) as [ rest -> ].
    cbn [Path.drop]. symmetry. apply (basename_after_slash EmptyString rest).
  - reflexivity.
Qed.

Lemma kept_nonempty (part : string) : Path.kept part = true -> part <> "".
Proof.
  unfold Path.kept. intros H ->. discriminate.
Qed.

(** Normalisation keeps the last component of a path when pathlib keeps
    that component at all. *)
Lemma basename_normalize (p : string) :
  Path.kept (Path.basename p) = true ->
  Path.basename (Path.normalize p) = Path.basename p.
Proof.
  intros Hkept. unfold Path.normalize.
  destruct (basename_splitroot p) as [ Hrel Hroot ].
  destruct (Path.splitroot p) as [ root rel ]. cbn [fst snd] in *.
  set (parts := filter Path.kept (Path.split rel)).
  assert (Hlast : last parts EmptyString = Path.basename p).
  { unfold parts. rewrite last_filter.
    - exact Hrel.
    - apply split_nonempty.
    - fold (Path.basename rel). now rewrite Hrel. }
  assert (Hne : parts <> []).
  { intros Hempty. rewrite Hempty in Hlast. simpl in Hlast.
    apply kept_nonempty in Hkept. congruence. }
  assert (Hfree : Forall (fun part => has_char "/" part = false) parts).
  { unfold parts. apply Forall_forall. intros part Hin.
    apply filter_In in Hin as [ Hin _ ].
    pose proof (split_parts_slashfree rel) as Hall.
    rewrite Forall_forall in Hall. now apply Hall. }
  assert (Htext : Path.basename (root ++ Path.join parts) = Path.basename p).
  { destruct Hroot as [ -> | [ -> | -> ] ].
    - simpl. unfold Path.basename. now rewrite (split_join parts Hne Hfree).
    - cbn [append]. rewrite basename_slash.
      unfold Path.basename. now rewrite (split_join parts Hne Hfree).
    - cbn [append]. rewrite !basename_slash.
      unfold Path.basename. now rewrite (split_join parts Hne Hfree). }
  destruct (String.eqb (root ++ Path.join parts) "") eqn:Hempty; [ | exact Htext ].
  apply String.eqb_eq in Hempty. rewrite Hempty in Htext.
  apply kept_nonempty in Hkept. unfold Path.basename in Htext at 1.
  simpl in Htext. congruence.
Qed.

(** The path of a file in a directory ends with the last component of
    the file's name. *)
Lemma basename_joinpath (dir name : string) :
  Path.kept (Path.basename name) = true ->
  Path.basename (Path.joinpath dir name) = Path.basename name.
Proof.
  intros Hkept. unfold Path.joinpath.
  rewrite basename_normalize; rewrite basename_posix_join; [ reflexivity | exact Hkept ].
Qed.

Lemma kept_with_extension (stem ext : string) :
  (2 <= String.length ext)%nat -> Path.kept (stem ++ ext) = true.
Proof.
  intros Hlen. unfold Path.kept.
  assert (Hlonger : (2 <= String.length (stem ++ ext))%nat).
  { induction stem as [ | c rest IH ]; [ exact Hlen | simpl; lia ]. }
  destruct (stem ++ ext)%string as [ | c [ | c' rest ] ]; simpl in Hlonger; try lia.
  change (negb false && negb (Ascii.eqb c "." && false) = true).
  now rewrite andb_false_r.
Qed.

Lemma json_path_is_not_md_path (E : environment) (filename : option string)
  (output_dir : string) :
  json_path_of E filename output_dir <> md_path_of E filename output_dir.
Proof.
  unfold json_path_of, md_path_of.
  set (name := match filename with
               | Some given => given
               | None => generated_filename E
               end).
  intros H. apply (f_equal Path.basename) in H.
  rewrite !basename_joinpath in H;
    try (rewrite basename_app by reflexivity;
         apply kept_with_extension; simpl; lia).
  rewrite !basename_app in H by reflexivity.
  apply append_cancel_l in H. discriminate.
Qed.

(** ** Saving to files *)

(** A save whose text reduction is empty or absent: the directory is
    created, the JSON file is attempted, and nothing else is touched. *)
Lemma save_to_file_without_text (E : environment) (data : pyval)
  (filename : option string) (output_dir : string) (text_content : option string) :
  _extract_text_content data = Returned text_content ->
  text_truthy text_content = false ->
  match mkdir_error E output_dir with
  | Some e => save_to_file E data filename output_dir = ([], Raised e)
  | None =>
      exists t,
        save_to_file E data filename output_dir
        = (Mkdir output_dir :: t,
           Returned (json_path_of E filename output_dir, None))
        /\ forall p, In p (files_touched t) -> p = json_path_of E filename output_dir
  end.
Proof.
  intros Htext Hfalsy.
  unfold save_to_file, mkdir.
  destruct (mkdir_error E output_dir) as [ e | ]; [ reflexivity | ].
  fold (json_path_of E filename output_dir).
  set (json_path := json_path_of E filename output_dir).
  rewrite Htext.
  unfold open_w, json_dump, write.
  destruct (open_error E json_path) as [ e1 | ];
    [ | destruct (Py.json_encodable _);
        [ destruct (write_error E json_path) as [ e2 | ]
        | destruct (Py.json_container _);
          [ destruct (write_error E json_path) as [ e2 | ] | ] ] ];
    destruct text_content as [ text | ]; simpl in Hfalsy |- *;
    try rewrite Hfalsy; simpl;
    eexists; (split; [ reflexivity | ]);
    simpl; intuition.
Qed.

(** C3: a value with no [text] field and no string anywhere has an
    absent text reduction, and saving it touches no Markdown file: when
    the output directory can be created the call returns the JSON path
    with no Markdown path, and otherwise it raises before any file is
    opened. *)
Theorem text_free_no_markdown :
  forall data : pyval,
    text_free data = true ->
    _extract_text_content data = Returned None
    /\ forall (E : environment) (filename : option string) (output_dir : string),
         ~ In (md_path_of E filename output_dir)
              (files_touched (trace (save_to_file E data filename output_dir)))
         /\ match mkdir_error E output_dir with
            | None =>
                outcome (save_to_file E data filename output_dir)
                = Returned (json_path_of E filename output_dir, None)
            | Some e =>
                save_to_file E data filename output_dir = ([], Raised e)
            end.
Proof.
  intros data Hfree.
  assert (Htext : _extract_text_content data = Returned None).
  { unfold _extract_text_content. now rewrite (extract_text_text_free data Hfree). }
  split; [ exact Htext | ].
  intros E filename output_dir.
  pose proof (save_to_file_without_text E data filename output_dir None Htext eq_refl)
    as Hrun.
  destruct (mkdir_error E output_dir) as [ e | ].
  - rewrite Hrun. split; [ intros [] | reflexivity ].
  - destruct Hrun as [ t [ Hrun Htouched ] ]. rewrite Hrun. split; [ | reflexivity ].
    intros Hin. simpl in Hin. apply Htouched in Hin.
    symmetry in Hin. now apply json_path_is_not_md_path in Hin.
Qed.

Lemma text_free_no_markdown_witness :
  let data := PObj [("content", PList [PInt 1; PNone]); ("pages", PInt 3)] in
  let E := quiet_environment sample_clock (Returned PNone) in
  _extract_text_content data = Returned None
  /\ outcome (save_to_file E data (Some "page") "output")
     = Returned ("output/page.json", None).
Proof.
  cbv zeta.
  destruct (text_free_no_markdown
              (PObj [("content", PList [PInt 1; PNone]); ("pages", PInt 3)])
              eq_refl) as [ Htext Hsave ].
  split; [ exact Htext | ].
  exact (proj2 (Hsave (quiet_environment sample_clock (Returned PNone))
                      (Some "page") "output")).
Defined.

Lemma str_join_empty_strings (k : nat) :
  str_join blank_line (repeat (PStr "") (S k)) = Returned (separators k).
Proof.
  induction k as [ | k IH ]; [ reflexivity | ].
  change (repeat (PStr "") (S (S k))) with (PStr "" :: repeat (PStr "") (S k)).
  cbn [str_join]. change (repeat (PStr "") (S k)) with (PStr "" :: repeat (PStr "") k) at 1.
  cbv iota. rewrite IH. reflexivity.
Qed.

(** C10, as the code has it: when the fragments found are [k + 1] empty
    strings, the text reduction is [k] blank-line separators.  With one
    fragment that is the empty string, which is present but false, so no
    Markdown file is touched and no Markdown path is returned; with more
    than one it is not empty. *)
Theorem empty_fragments_text :
  forall (data : pyval) (k : nat),
    fragments data = repeat (PStr "") (S k) ->
    _extract_text_content data = Returned (Some (separators k))
    /\ (k <> O -> text_truthy (Some (separators k)) = true)
    /\ (k = O ->
        separators k = ""
        /\ forall (E : environment) (filename : option string) (output_dir : string),
             ~ In (md_path_of E filename output_dir)
                  (files_touched (trace (save_to_file E data filename output_dir)))
             /\ match mkdir_error E output_dir with
                | None =>
                    outcome (save_to_file E data filename output_dir)
                    = Returned (json_path_of E filename output_dir, None)
                | Some e =>
                    save_to_file E data filename output_dir = ([], Raised e)
                end).
Proof.
  intros data k Hfragments.
  assert (Htext : _extract_text_content data = Returned (Some (separators k))).
  { unfold _extract_text_content. fold (fragments data). rewrite Hfragments.
    rewrite str_join_empty_strings. reflexivity. }
  split; [ exact Htext | split ].
  - destruct k as [ | k ]; [ congruence | reflexivity ].
  - intros ->. split; [ reflexivity | ].
    intros E filename output_dir.
    pose proof (save_to_file_without_text E data filename output_dir (Some "")
                  Htext eq_refl) as Hrun.
    destruct (mkdir_error E output_dir) as [ e | ].
    + rewrite Hrun. split; [ intros [] | reflexivity ].
    + destruct Hrun as [ t [ Hrun Htouched ] ]. rewrite Hrun. split; [ | reflexivity ].
      intros Hin. simpl in Hin. apply Htouched in Hin.
      symmetry in Hin. now apply json_path_is_not_md_path in Hin.
Qed.

Lemma empty_fragments_text_witness :
  let data := PObj [("content", PList [text_item ""])] in
  _extract_text_content data = Returned (Some "")
  /\ outcome (save_to_file (quiet_environment sample_clock (Returned PNone))
                           data (Some "page") "output")
     = Returned ("output/page.json", None).
Proof.
  cbv zeta.
  destruct (empty_fragments_text (PObj [("content", PList [text_item ""])]) O eq_refl)
    as [ Htext [ _ Hone ] ].
  split; [ exact Htext | ].
  destruct (Hone eq_refl) as [ _ Hsave ].
  exact (proj2 (Hsave (quiet_environment sample_clock (Returned PNone))
                      (Some "page") "output")).
Defined.

(** C10, as stated, fails: two empty fragments are joined into one
    blank-line separator, which is not the empty string, and the Markdown
    file is written. *)
Lemma empty_fragments_counterexample :
  let data := PObj [("content", PList [text_item ""; text_item ""])] in
  let E := quiet_environment sample_clock (Returned PNone) in
  fragments data = [PStr ""; PStr ""]
  /\ _extract_text_content data = Returned (Some blank_line)
  /\ _extract_text_content data <> Returned (Some "")
  /\ In (Write "output/page.md" (PlainText blank_line))
        (trace (save_to_file E data (Some "page") "output"))
  /\ outcome (save_to_file E data (Some "page") "output")
     = Returned ("output/page.json", Some "output/page.md").
Proof.
  cbv zeta. repeat split; try reflexivity.
  - discriminate.
  - vm_compute. intuition.
Qed.

(** ** Saving to a table *)

Lemma bind_returned {A B : Type} (a : A) (k : A -> M B) :
  bind (lift (Returned a)) k = k a.
Proof.
  unfold bind, lift. now destruct (k a).
Qed.

Lemma bind_raised {A B : Type} (e : exception) (k : A -> M B) :
  bind (lift (Raised e)) k = ([], Raised e).
Proof.
  reflexivity.
Qed.

Lemma bind_silent {A B : Type} (r : result A) (k : A -> M B) :
  bind ([], r) k = match r with Returned a => k a | Raised e => ([], Raised e) end.
Proof.
  destruct r as [ a | e ]; [ apply (bind_returned a k) | reflexivity ].
Qed.

Lemma outcome_bind {A B : Type} (m : M A) (k : A -> M B) :
  outcome (bind m k)
  = match outcome m with
    | Returned a => outcome (k a)
    | Raised e => Raised e
    end.
Proof.
  destruct m as [ t [ a | e ] ]; simpl; [ now destruct (k a) | reflexivity ].
Qed.

Lemma trace_bind {A B : Type} (m : M A) (k : A -> M B) :
  trace (bind m k)
  = trace m ++ match outcome m with
               | Returned a => trace (k a)
               | Raised _ => []
               end.
Proof.
  destruct m as [ t [ a | e ] ]; simpl;
    [ now destruct (k a) | now rewrite app_nil_r ].
Qed.

Lemma outcome_try_except {A : Type} (body : M A) (handler : exception -> M A) :
  outcome (try_except body handler)
  = match outcome body with
    | Returned a => Returned a
    | Raised e => outcome (handler e)
    end.
Proof.
  destruct body as [ t [ a | e ] ]; simpl; [ reflexivity | now destruct (handler e) ].
Qed.

Lemma trace_try_except {A : Type} (body : M A) (handler : exception -> M A) :
  trace (try_except body handler)
  = trace body ++ match outcome body with
                  | Returned _ => []
                  | Raised e => trace (handler e)
                  end.
Proof.
  destruct body as [ t [ a | e ] ]; simpl;
    [ now rewrite app_nil_r | now destruct (handler e) ].
Qed.

Lemma files_touched_app (t1 t2 : list event) :
  files_touched (t1 ++ t2) = files_touched t1 ++ files_touched t2.
Proof.
  unfold files_touched. apply flat_map_app.
Qed.

(** A comprehension over a computation without effects has none. *)
Lemma comprehension_lift {A B : Type} (f : A -> result B) (l : list A) :
  exists r, comprehension (fun x => lift (f x)) l = ([], r).
Proof.
  induction l as [ | x rest [ r IH ] ]; cbn [comprehension].
  - now eexists.
  - destruct (f x) as [ y | e ].
    + rewrite bind_returned, IH, bind_silent.
      destruct r as [ ys | e ]; now eexists.
    + rewrite bind_raised. now eexists.
Qed.

(** C4: for the response whose [content] holds the items [{text: "A"}] and
    [{text: "B"}], the text reduction is ["A"], a blank line, ["B"]; and,
    pandas laying a flat list of strings out as one column and the file
    being writable, [save_to_table] writes the one-column table with the
    rows ["A"] and ["B"], in that order, in either supported format. *)
Theorem two_items_example :
  _extract_text_content two_items = Returned (Some ("A" ++ blank_line ++ "B")%string)
  /\ forall (E : environment) (filename : option string) (format : string),
       pandas_flat E ->
       format = "csv" \/ format = "excel" ->
       open_error E (table_path filename format) = None ->
       write_error E (table_path filename format) = None ->
       save_to_table E two_items filename format
       = ([Open (table_path filename format);
           Write (table_path filename format)
                 (table_payload format
                    {| columns := [PInt 0]; rows := [[PStr "A"]; [PStr "B"]] |});
           Print (SavedTable (Str.format_opt filename) format)],
          Returned tt).
Proof.
  split; [ reflexivity | ].
  intros E filename format Hpandas Hformat Hopen Hwrite.
  unfold save_to_table, two_items. simpl.
  rewrite (Hpandas [PStr "A"; PStr "B"] eq_refl).
  unfold table_path, table_payload in *.
  destruct Hformat as [ -> | -> ]; simpl in *;
    unfold to_csv, to_excel, open_w, write;
    rewrite Hopen; simpl; rewrite Hwrite; reflexivity.
Qed.

Lemma two_items_example_witness :
  save_to_table (quiet_environment sample_clock (Returned PNone))
                two_items (Some "table") "csv"
  = ([Open "table.csv";
      Write "table.csv"
            (CsvTable {| columns := [PInt 0]; rows := [[PStr "A"]; [PStr "B"]] |});
      Print (SavedTable "table" "csv")],
     Returned tt).
Proof.
  apply (proj2 two_items_example
               (quiet_environment sample_clock (Returned PNone)) (Some "table") "csv").
  - intros data _. reflexivity.
  - left. reflexivity.
  - reflexivity.
  - reflexivity.
Defined.

Lemma comprehension_texts_of (items : list pyval) :
  comprehension (fun item => lift (Py.getattr item "text")) items
  = ([], texts_of items).
Proof.
  induction items as [ | item rest IH ]; cbn [comprehension texts_of];
    [ reflexivity | ].
  destruct (Py.getattr item "text") as [ text | e ];
    [ | now rewrite bind_raised ].
  rewrite bind_returned, IH, bind_silent.
  destruct (texts_of rest); reflexivity.
Qed.

(** C5, as the code has it: in each of these cases [save_to_table] prints
    exactly one line, touches no file and returns normally.  Without a
    usable content the line is the no-content line.  With content and a
    format that is neither ["csv"] nor ["excel"], the table is built
    before the format is looked at: the line is the unsupported-format
    line when the frame could be built, and the failure line with the
    error of the build otherwise.  Every response is in one of the two
    cases. *)
Theorem save_to_table_skip_reports :
  forall (E : environment) (result : pyval) (filename : option string)
         (format : string),
    (no_content result ->
     save_to_table E result filename format
     = ([Print NoContentToSave], Returned tt))
    /\ (has_content result -> unsupported format ->
        save_to_table E result filename format
        = ([Print match table_frame E result with
                  | Returned _ => UnsupportedFormat format
                  | Raised e => FailedToSaveTable e
                  end],
           Returned tt))
    /\ (no_content result \/ has_content result).
Proof.
  intros E result filename format. split; [ | split ].
  - intros Hnone. unfold save_to_table.
    destruct Hnone as [ Hmissing | [ content [ Hget Hfalsy ] ] ].
    + now rewrite Hmissing.
    + rewrite Hget, Hfalsy. cbn [negb]. now rewrite orb_true_r.
  - intros [ content [ Hget Htruthy ] ] [ Hcsv Hexcel ].
    assert (Hhas : Py.hasattr result "content" = true)
      by (apply getattr_hasattr; now exists content).
    apply String.eqb_neq in Hcsv. apply String.eqb_neq in Hexcel.
    unfold save_to_table, table_frame.
    rewrite Hhas, Hget, Htruthy, Hcsv, Hexcel. cbn [negb orb].
    rewrite bind_returned.
    destruct (Py.iterate content) as [ items | e ];
      [ | now rewrite bind_raised ].
    rewrite bind_returned, comprehension_texts_of, bind_silent.
    destruct (texts_of items) as [ data | e ]; [ | reflexivity ].
    destruct (pd_DataFrame E data) as [ df | e ];
      [ now rewrite bind_returned | now rewrite bind_raised ].
  - unfold no_content, has_content.
    destruct (Py.hasattr result "content") eqn:Hhas; [ | now left; left ].
    apply getattr_hasattr in Hhas as [ content Hget ].
    destruct (Py.truthy content) eqn:Htruthy.
    + right. now exists content.
    + left. right. now exists content.
Qed.

Lemma save_to_table_skip_reports_witness :
  save_to_table (quiet_environment sample_clock (Returned PNone))
                (PObj [("content", PList [])]) (Some "table") "csv"
  = ([Print NoContentToSave], Returned tt)
  /\ save_to_table (quiet_environment sample_clock (Returned PNone))
                   two_items (Some "table") "pdf"
     = ([Print (UnsupportedFormat "pdf")], Returned tt).
Proof.
  split.
  - apply (proj1 (save_to_table_skip_reports
                    (quiet_environment sample_clock (Returned PNone))
                    (PObj [("content", PList [])]) (Some "table") "csv")).
    right. now exists (PList []).
  - apply (proj1 (proj2 (save_to_table_skip_reports
                           (quiet_environment sample_clock (Returned PNone))
                           two_items (Some "table") "pdf"))).
    + now exists (PList [text_item "A"; text_item "B"]).
    + split; discriminate.
Defined.

(** C5, as stated, fails: with a format that is neither ["csv"] nor
    ["excel"] and a content whose item has no [text], the only line
    printed is the failure line with the attribute error; the unsupported
    format is not reported. *)
Lemma save_to_table_skips_counterexample :
  let result := PObj [("content", PList [PObj [("data", PStr "iVBOR")]])] in
  let E := quiet_environment sample_clock (Returned PNone) in
  unsupported "pdf"
  /\ save_to_table E result (Some "table") "pdf"
     = ([Print (FailedToSaveTable (Exception "AttributeError" "text"))],
        Returned tt)
  /\ ~ In (Print (UnsupportedFormat "pdf"))
          (trace (save_to_table E result (Some "table") "pdf"))
  /\ ~ In (Print NoContentToSave)
          (trace (save_to_table E result (Some "table") "pdf")).
Proof.
  cbv zeta. repeat split; try discriminate.
  - intros [ H | [] ]. discriminate.
  - intros [ H | [] ]. discriminate.
Qed.

(** X29: with a content whose items all have a text and a frame pandas
    accepts, a call with an unsupported format prints the
    unsupported-format line and nothing else: the frame is built first and
    then dropped. *)
Lemma save_to_table_unsupported_format (E : environment) (result content : pyval)
  (items data : list pyval) (df : DataFrame) (filename : option string)
  (format : string) :
  Py.getattr result "content" = Returned content ->
  Py.truthy content = true ->
  Py.iterate content = Returned items ->
  comprehension (fun item => lift (Py.getattr item "text")) items
  = ([], Returned data) ->
  pd_DataFrame E data = Returned df ->
  unsupported format ->
  save_to_table E result filename format
  = ([Print (UnsupportedFormat format)], Returned tt).
Proof.
  intros Hget Htruthy Hiter Htexts Hframe [ Hcsv Hexcel ].
  unfold save_to_table, Py.hasattr.
  rewrite Hget.
  assert (Hhas : match result with
                 | PObj attrs =>
                     match Py.lookup "content" attrs with
                     | Some _ => true
                     | None => false
                     end
                 | _ => false
                 end = true).
  { unfold Py.getattr in Hget. destruct result; try discriminate.
    now destruct (Py.lookup "content" attrs). }
  rewrite Hhas, Htruthy. cbn [negb orb].
  rewrite bind_returned, Hiter, bind_returned, Htexts, bind_silent.
  rewrite Hframe, bind_returned.
  apply String.eqb_neq in Hcsv. apply String.eqb_neq in Hexcel.
  now rewrite Hcsv, Hexcel.
Qed.

(** ** Session and facade *)

(** C7: when the session's list-resources call fails with a message that
    contains ["Method not found"], [list_resources] reports that resources
    are not supported and returns the empty list. *)
Theorem list_resources_method_not_found :
  forall (E : environment) (e : exception),
    session_list_resources E = Raised e ->
    Py.contains "Method not found" (exc_message e) = true ->
    list_resources E = ([Print ResourcesNotSupported], Returned (PList [])).
Proof.
  intros E e Hcall Hmessage.
  unfold list_resources. rewrite Hcall, bind_raised.
  unfold try_except. rewrite Hmessage. reflexivity.
Qed.

Lemma list_resources_method_not_found_witness :
  list_resources
    (quiet_environment sample_clock
       (Raised (Exception "McpError" "Method not found")))
  = ([Print ResourcesNotSupported], Returned (PList [])).
Proof.
  apply (list_resources_method_not_found _ (Exception "McpError" "Method not found"));
    reflexivity.
Defined.

(** Whatever the session answers, [list_resources] returns. *)
Lemma list_resources_returns (E : environment) :
  exists listed, outcome (list_resources E) = Returned listed.
Proof.
  unfold list_resources, try_except.
  match goal with |- context [ match ?body with _ => _ end ] =>
    destruct body as [ t [ listed | e ] ] end.
  - now exists listed.
  - destruct (Py.contains "Method not found" (exc_message e)); now eexists.
Qed.

(** C6: when the remote tool invocation of a facade operation raises, the
    operation returns [None]; nothing propagates and no file is touched. *)
Theorem facade_failure_returns_none :
  forall (E : environment) (op : operation) (e : exception),
    session_call_tool E (fst (request op)) (snd (request op)) = Raised e ->
    outcome (invoke E op) = Returned PNone
    /\ files_touched (trace (invoke E op)) = [].
Proof.
  intros E op e Hcall.
  destruct op; cbn [invoke request fst snd] in *.
  - unfold crawl_url. rewrite Hcall, bind_raised. split; reflexivity.
  - unfold firecrawl_scrape. rewrite Hcall, bind_raised. split; reflexivity.
  - unfold firecrawl_extract, json_dumps.
    destruct (Py.json_encodable _); [ | split; reflexivity ].
    rewrite Hcall, bind_raised. split; reflexivity.
  - unfold search. rewrite Hcall, bind_raised. split; reflexivity.
Qed.

Lemma facade_failure_returns_none_witness :
  let E := quiet_environment sample_clock
             (Raised (Exception "McpError" "Connection closed")) in
  outcome (invoke E (CrawlUrl "https://example.com" true None [])) = Returned PNone
  /\ outcome (invoke E (FirecrawlExtract (PList [PStr "https://example.com"])
                          (PStr "titles") (PStr "be brief") (PDict [])
                          false false false true true None))
     = Returned PNone.
Proof.
  cbv zeta. split.
  - apply (facade_failure_returns_none _
             (CrawlUrl "https://example.com" true None [])
             (Exception "McpError" "Connection closed")).
    reflexivity.
  - apply (facade_failure_returns_none _
             (FirecrawlExtract (PList [PStr "https://example.com"])
                (PStr "titles") (PStr "be brief") (PDict [])
                false false false true true None)
             (Exception "McpError" "Connection closed")).
    reflexivity.
Defined.

(** ** Generated file names *)

Lemma digit_inj (a b : Z) :
  0 <= a <= 9 -> 0 <= b <= 9 -> Datetime.digit a = Datetime.digit b -> a = b.
Proof.
  intros Ha Hb H. unfold Datetime.digit in H.
  apply (f_equal nat_of_ascii) in H.
  rewrite !nat_ascii_embedding in H by lia. lia.
Qed.

Lemma pad2_inj (n m : Z) (rest1 rest2 : string) :
  0 <= n < 100 -> 0 <= m < 100 ->
  Datetime.pad2 n rest1 = Datetime.pad2 m rest2 -> n = m /\ rest1 = rest2.
Proof.
  intros Hn Hm H. unfold Datetime.pad2 in H.
  injection H as Htens Hunits Hrest.
  pose proof (Z.div_mod n 10 ltac:(lia)) as Hdn.
  pose proof (Z.mod_pos_bound n 10 ltac:(lia)) as Hbn.
  pose proof (Z.div_mod m 10 ltac:(lia)) as Hdm.
  pose proof (Z.mod_pos_bound m 10 ltac:(lia)) as Hbm.
  apply digit_inj in Htens; [ | lia | lia ].
  apply digit_inj in Hunits; [ | lia | lia ].
  split; [ lia | exact Hrest ].
Qed.

Lemma pad4_inj (n m : Z) (rest1 rest2 : string) :
  0 <= n < 10000 -> 0 <= m < 10000 ->
  Datetime.pad4 n rest1 = Datetime.pad4 m rest2 -> n = m /\ rest1 = rest2.
Proof.
  intros Hn Hm H. unfold Datetime.pad4 in H.
  pose proof (Z.div_mod n 100 ltac:(lia)) as Hdn.
  pose proof (Z.mod_pos_bound n 100 ltac:(lia)) as Hbn.
  pose proof (Z.div_mod m 100 ltac:(lia)) as Hdm.
  pose proof (Z.mod_pos_bound m 100 ltac:(lia)) as Hbm.
  apply pad2_inj in H as [ Hhigh H ]; [ | lia | lia ].
  apply pad2_inj in H as [ Hlow Hrest ]; [ | lia | lia ].
  split; [ lia | exact Hrest ].
Qed.

Lemma string_tail_inj (c1 c2 : ascii) (rest1 rest2 : string) :
  String c1 rest1 = String c2 rest2 -> rest1 = rest2.
Proof.
  intros H. now injection H.
Qed.

Lemma days_in_month_le_31 (y m : Z) : Datetime.days_in_month y m <= 31.
Proof.
  unfold Datetime.days_in_month.
  destruct (m =? 2); [ destruct (Datetime.is_leap y); lia | ].
  destruct ((m =? 4) || (m =? 6) || (m =? 9) || (m =? 11)); lia.
Qed.

(** Two readings with the same stamp agree on every field down to the
    second. *)
Lemma stamp_inj (dt1 dt2 : datetime) (rest1 rest2 : string) :
  Datetime.valid dt1 -> Datetime.valid dt2 ->
  (Datetime.strftime_Ymd_HMS dt1 ++ rest1)%string
  = (Datetime.strftime_Ymd_HMS dt2 ++ rest2)%string ->
  year dt1 = year dt2 /\ month dt1 = month dt2 /\ day dt1 = day dt2 /\
  hour dt1 = hour dt2 /\ minute dt1 = minute dt2 /\ second dt1 = second dt2.
Proof.
  intros (Hy1 & Hmo1 & Hd1 & Hh1 & Hmi1 & Hs1 & _)
         (Hy2 & Hmo2 & Hd2 & Hh2 & Hmi2 & Hs2 & _) H.
  pose proof (days_in_month_le_31 (year dt1) (month dt1)).
  pose proof (days_in_month_le_31 (year dt2) (month dt2)).
  unfold Datetime.strftime_Ymd_HMS in H.
  change (Datetime.pad4 (year dt1) (Datetime.pad2 (month dt1) (Datetime.pad2 (day dt1)
            (String "_" (Datetime.pad2 (hour dt1) (Datetime.pad2 (minute dt1)
               (Datetime.pad2 (second dt1) rest1))))))
          = Datetime.pad4 (year dt2) (Datetime.pad2 (month dt2) (Datetime.pad2 (day dt2)
            (String "_" (Datetime.pad2 (hour dt2) (Datetime.pad2 (minute dt2)
               (Datetime.pad2 (second dt2) rest2))))))) in H.
  apply pad4_inj in H as [ Hy H ]; [ | lia | lia ].
  apply pad2_inj in H as [ Hmo H ]; [ | lia | lia ].
  apply pad2_inj in H as [ Hd H ]; [ | lia | lia ].
  apply string_tail_inj in H.
  apply pad2_inj in H as [ Hh H ]; [ | lia | lia ].
  apply pad2_inj in H as [ Hmi H ]; [ | lia | lia ].
  apply pad2_inj in H as [ Hs _ ]; [ | lia | lia ].
  repeat split; assumption.
Qed.

(** Readings that agree down to the second are less than a second
    apart. *)
Lemma same_second_close (dt1 dt2 : datetime) :
  Datetime.valid dt1 -> Datetime.valid dt2 ->
  year dt1 = year dt2 -> month dt1 = month dt2 -> day dt1 = day dt2 ->
  hour dt1 = hour dt2 -> minute dt1 = minute dt2 -> second dt1 = second dt2 ->
  Z.abs (Datetime.total_microseconds dt1 - Datetime.total_microseconds dt2) < 1000000.
Proof.
  intros (_ & _ & _ & _ & _ & _ & Hus1) (_ & _ & _ & _ & _ & _ & Hus2)
         Hy Hmo Hd Hh Hmi Hs.
  unfold Datetime.total_microseconds, Datetime.toordinal.
  rewrite Hy, Hmo, Hd, Hh, Hmi, Hs. lia.
Qed.

Lemma append_empty_r (s : string) : (s ++ "")%string = s.
Proof.
  induction s as [ | c rest IH ]; simpl; [ reflexivity | now rewrite IH ].
Qed.

Lemma digit_not_slash (d : Z) :
  0 <= d <= 9 -> Ascii.eqb (Datetime.digit d) "/" = false.
Proof.
  intros Hd. destruct (Ascii.eqb (Datetime.digit d) "/") eqn:Heq; [ | reflexivity ].
  apply Ascii.eqb_eq in Heq. unfold Datetime.digit in Heq.
  apply (f_equal nat_of_ascii) in Heq.
  rewrite nat_ascii_embedding in Heq by lia.
  change (nat_of_ascii "/") with 47%nat in Heq. lia.
Qed.

Lemma pad2_slashfree (n : Z) (rest : string) :
  0 <= n < 100 ->
  has_char "/" (Datetime.pad2 n rest) = has_char "/" rest.
Proof.
  intros Hn. unfold Datetime.pad2. cbn [has_char].
  pose proof (Z.div_mod n 10 ltac:(lia)).
  pose proof (Z.mod_pos_bound n 10 ltac:(lia)).
  rewrite !digit_not_slash by lia. reflexivity.
Qed.

Lemma stamp_slashfree (dt : datetime) (rest : string) :
  Datetime.valid dt ->
  has_char "/" (Datetime.strftime_Ymd_HMS dt ++ rest) = has_char "/" rest.
Proof.
  intros (Hy & Hmo & Hd & Hh & Hmi & Hs & _).
  pose proof (days_in_month_le_31 (year dt) (month dt)).
  pose proof (Z.div_mod (year dt) 100 ltac:(lia)).
  pose proof (Z.mod_pos_bound (year dt) 100 ltac:(lia)).
  change (Datetime.strftime_Ymd_HMS dt ++ rest)%string
    with (Datetime.pad2 (year dt / 100) (Datetime.pad2 (year dt mod 100)
            (Datetime.pad2 (month dt) (Datetime.pad2 (day dt)
               (String "_" (Datetime.pad2 (hour dt) (Datetime.pad2 (minute dt)
                  (Datetime.pad2 (second dt) rest)))))))).
  rewrite !pad2_slashfree by lia. cbn [has_char Ascii.eqb Bool.eqb].
  rewrite !pad2_slashfree by lia. reflexivity.
Qed.

(** The path of a file named by a stamp, in any directory, ends with the
    file's own name. *)
Lemma stamped_path_basename (dt : datetime) (output_dir ext : string) :
  Datetime.valid dt ->
  has_char "/" ext = false -> (2 <= String.length ext)%nat ->
  Path.basename
    (Path.joinpath output_dir
       (("firecrawl_result_" ++ Datetime.strftime_Ymd_HMS dt) ++ ext))
  = (("firecrawl_result_" ++ Datetime.strftime_Ymd_HMS dt) ++ ext)%string.
Proof.
  intros Hvalid Hext Hlen.
  assert (Hfree : has_char "/" ("firecrawl_result_" ++ Datetime.strftime_Ymd_HMS dt)
                  = false).
  { pose proof (stamp_slashfree dt EmptyString Hvalid) as Hstamp.
    rewrite append_empty_r in Hstamp.
    rewrite has_char_app, Hstamp. reflexivity. }
  assert (Hbase : Path.basename
                    (("firecrawl_result_" ++ Datetime.strftime_Ymd_HMS dt) ++ ext)
                  = (("firecrawl_result_" ++ Datetime.strftime_Ymd_HMS dt) ++ ext)%string).
  { rewrite basename_app by exact Hext. now rewrite basename_slashfree. }
  rewrite basename_joinpath; [ exact Hbase | ].
  rewrite Hbase. now apply kept_with_extension.
Qed.

(** What a save returns once the directory exists and the text reduction
    returned. *)
Lemma save_to_file_returns (E : environment) (data : pyval)
  (filename : option string) (output_dir : string) (text_content : option string) :
  mkdir_error E output_dir = None ->
  _extract_text_content data = Returned text_content ->
  outcome (save_to_file E data filename output_dir)
  = Returned (json_path_of E filename output_dir,
              if text_truthy text_content
              then Some (md_path_of E filename output_dir) else None).
Proof.
  intros Hmkdir Htext.
  unfold save_to_file, mkdir. rewrite Hmkdir, Htext.
  fold (json_path_of E filename output_dir) (md_path_of E filename output_dir).
  set (json_path := json_path_of E filename output_dir).
  set (md_path := md_path_of E filename output_dir).
  unfold open_w, json_dump, write.
  destruct text_content as [ text | ];
    [ destruct (String.eqb text "") eqn:Hempty;
      [ | destruct (open_error E md_path) as [ m1 | ] eqn:Hopen;
          [ | destruct (write_error E md_path) as [ m2 | ] eqn:Hwrite ] ] | ];
    (destruct (open_error E json_path) as [ e1 | ];
     [ | destruct (Py.json_encodable _);
         [ destruct (write_error E json_path) as [ e2 | ]
         | destruct (Py.json_container _);
           [ destruct (write_error E json_path) as [ e2 | ] | ] ] ]);
    simpl; rewrite ?Hempty; simpl; rewrite ?Hopen; simpl; rewrite ?Hwrite;
    reflexivity.
Qed.

(** The only files a save can touch are its JSON file and its Markdown
    file. *)
Lemma save_to_file_touches (E : environment) (data : pyval)
  (filename : option string) (output_dir : string) (p : string) :
  In p (files_touched (trace (save_to_file E data filename output_dir))) ->
  p = json_path_of E filename output_dir \/ p = md_path_of E filename output_dir.
Proof.
  unfold save_to_file, mkdir.
  fold (json_path_of E filename output_dir) (md_path_of E filename output_dir).
  set (json_path := json_path_of E filename output_dir).
  set (md_path := md_path_of E filename output_dir).
  unfold open_w, json_dump, write.
  destruct (mkdir_error E output_dir) as [ e | ]; [ intros [] | ].
  destruct (_extract_text_content data) as [ [ text | ] | e ];
    [ destruct (String.eqb text "") eqn:Hempty;
      [ | destruct (open_error E md_path) as [ m1 | ] eqn:Hopen;
          [ | destruct (write_error E md_path) as [ m2 | ] eqn:Hwrite ] ] | | ];
    (destruct (open_error E json_path) as [ e1 | ];
     [ | destruct (Py.json_encodable _);
         [ destruct (write_error E json_path) as [ e2 | ]
         | destruct (Py.json_container _);
           [ destruct (write_error E json_path) as [ e2 | ] | ] ] ]);
    simpl; rewrite ?Hempty; simpl; rewrite ?Hopen; simpl; rewrite ?Hwrite;
    simpl; intuition.
Qed.

(** Once the directory exists, a save opens its JSON file whenever the
    file system lets it. *)
Lemma save_to_file_opens_json (E : environment) (data : pyval)
  (filename : option string) (output_dir : string) :
  mkdir_error E output_dir = None ->
  open_error E (json_path_of E filename output_dir) = None ->
  In (Open (json_path_of E filename output_dir))
     (trace (save_to_file E data filename output_dir)).
Proof.
  intros Hmkdir Hopen.
  unfold save_to_file, mkdir. rewrite Hmkdir.
  fold (json_path_of E filename output_dir).
  unfold open_w. rewrite Hopen.
  rewrite trace_bind. apply in_or_app. right.
  cbn [outcome snd emit].
  rewrite trace_bind. apply in_or_app. left.
  rewrite trace_try_except. apply in_or_app. left.
  rewrite trace_bind. apply in_or_app. left. now left.
Qed.

(** C8: without a file name, [save_to_file] names its files
    ["firecrawl_result_"] followed by the clock reading as year, month,
    day, an underscore, hour, minute and second: that is the JSON path it
    returns and the file it opens.  Two saves into the same directory whose
    readings are at least one second apart have different names and
    different paths, and no file touched by one is touched by the other. *)
Theorem generated_filenames_distinct :
  forall (E1 E2 : environment) (data1 data2 : pyval) (output_dir : string)
         (text1 text2 : option string),
    Datetime.valid (now E1) -> Datetime.valid (now E2) ->
    1000000 <= Z.abs (Datetime.total_microseconds (now E1)
                      - Datetime.total_microseconds (now E2)) ->
    mkdir_error E1 output_dir = None -> mkdir_error E2 output_dir = None ->
    _extract_text_content data1 = Returned text1 ->
    _extract_text_content data2 = Returned text2 ->
    let name1 := ("firecrawl_result_" ++ Datetime.strftime_Ymd_HMS (now E1))%string in
    let name2 := ("firecrawl_result_" ++ Datetime.strftime_Ymd_HMS (now E2))%string in
    outcome (save_to_file E1 data1 None output_dir)
    = Returned (Path.joinpath output_dir (name1 ++ ".json"),
                if text_truthy text1
                then Some (Path.joinpath output_dir (name1 ++ ".md")) else None)
    /\ outcome (save_to_file E2 data2 None output_dir)
       = Returned (Path.joinpath output_dir (name2 ++ ".json"),
                   if text_truthy text2
                   then Some (Path.joinpath output_dir (name2 ++ ".md")) else None)
    /\ name1 <> name2
    /\ Path.joinpath output_dir (name1 ++ ".json")
       <> Path.joinpath output_dir (name2 ++ ".json")
    /\ (forall p,
          In p (files_touched (trace (save_to_file E1 data1 None output_dir))) ->
          ~ In p (files_touched (trace (save_to_file E2 data2 None output_dir))))
    /\ (open_error E1 (Path.joinpath output_dir (name1 ++ ".json")) = None ->
        In (Open (Path.joinpath output_dir (name1 ++ ".json")))
           (trace (save_to_file E1 data1 None output_dir)))
    /\ (open_error E2 (Path.joinpath output_dir (name2 ++ ".json")) = None ->
        In (Open (Path.joinpath output_dir (name2 ++ ".json")))
           (trace (save_to_file E2 data2 None output_dir))).
Proof.
  intros E1 E2 data1 data2 output_dir text1 text2
         Hvalid1 Hvalid2 Hapart Hmkdir1 Hmkdir2 Htext1 Htext2 name1 name2.
  assert (Hstamp : forall rest1 rest2,
             (Datetime.strftime_Ymd_HMS (now E1) ++ rest1)%string
             <> (Datetime.strftime_Ymd_HMS (now E2) ++ rest2)%string).
  { intros rest1 rest2 H.
    apply stamp_inj in H as (Hy & Hmo & Hd & Hh & Hmi & Hs); try assumption.
    pose proof (same_second_close (now E1) (now E2) Hvalid1 Hvalid2
                  Hy Hmo Hd Hh Hmi Hs).
    lia. }
  assert (Hpaths : forall ext1 ext2,
             has_char "/" ext1 = false -> (2 <= String.length ext1)%nat ->
             has_char "/" ext2 = false -> (2 <= String.length ext2)%nat ->
             Path.joinpath output_dir (name1 ++ ext1)
             <> Path.joinpath output_dir (name2 ++ ext2)).
  { intros ext1 ext2 Hf1 Hl1 Hf2 Hl2 H.
    apply (f_equal Path.basename) in H. unfold name1, name2 in H.
    rewrite (stamped_path_basename (now E1) output_dir ext1 Hvalid1 Hf1 Hl1) in H.
    rewrite (stamped_path_basename (now E2) output_dir ext2 Hvalid2 Hf2 Hl2) in H.
    rewrite !append_assoc in H. apply append_cancel_l in H.
    now apply Hstamp in H. }
  assert (Hjson : forall E, json_path_of E None output_dir
                            = Path.joinpath output_dir
                                (("firecrawl_result_"
                                  ++ Datetime.strftime_Ymd_HMS (now E)) ++ ".json"))
    by reflexivity.
  assert (Hmd : forall E, md_path_of E None output_dir
                          = Path.joinpath output_dir
                              (("firecrawl_result_"
                                ++ Datetime.strftime_Ymd_HMS (now E)) ++ ".md"))
    by reflexivity.
  repeat split.
  - rewrite (save_to_file_returns E1 data1 None output_dir text1 Hmkdir1 Htext1).
    now rewrite Hjson, Hmd.
  - rewrite (save_to_file_returns E2 data2 None output_dir text2 Hmkdir2 Htext2).
    now rewrite Hjson, Hmd.
  - unfold name1, name2. intros H. apply append_cancel_l in H.
    apply (f_equal (fun s => (s ++ "")%string)) in H.
    now apply Hstamp in H.
  - apply Hpaths; try reflexivity; simpl; lia.
  - intros p Hin1 Hin2.
    apply save_to_file_touches in Hin1. apply save_to_file_touches in Hin2.
    rewrite Hjson, Hmd in Hin1, Hin2. fold name1 name2 in Hin1, Hin2.
    destruct Hin1 as [ -> | -> ]; destruct Hin2 as [ H | H ];
      revert H; apply Hpaths; try reflexivity; simpl; lia.
  - intros Hopen.
    change (Path.joinpath output_dir (name1 ++ ".json"))
      with (json_path_of E1 None output_dir) in *.
    now apply save_to_file_opens_json.
  - intros Hopen.
    change (Path.joinpath output_dir (name2 ++ ".json"))
      with (json_path_of E2 None output_dir) in *.
    now apply save_to_file_opens_json.
Qed.

Lemma generated_filenames_distinct_witness :
  let later :=
    {| year := 2025; month := 3; day := 7;
       hour := 9; minute := 5; second := 1; microsecond := 12 |} in
  outcome (save_to_file (quiet_environment sample_clock (Returned PNone))
                        two_items None "out/")
  = Returned ("out/firecrawl_result_20250307_090500.json",
              Some "out/firecrawl_result_20250307_090500.md")
  /\ outcome (save_to_file (quiet_environment later (Returned PNone))
                           two_items None "out/")
     = Returned ("out/firecrawl_result_20250307_090501.json",
                 Some "out/firecrawl_result_20250307_090501.md").
Proof.
  cbv zeta.
  destruct (generated_filenames_distinct
              (quiet_environment sample_clock (Returned PNone))
              (quiet_environment
                 {| year := 2025; month := 3; day := 7;
                    hour := 9; minute := 5; second := 1; microsecond := 12 |}
                 (Returned PNone))
              two_items two_items "out/"
              (Some ("A" ++ blank_line ++ "B")%string)
              (Some ("A" ++ blank_line ++ "B")%string))
    as (Hfirst & Hsecond & _).
  - unfold Datetime.valid. repeat split; vm_compute; discriminate.
  - unfold Datetime.valid. repeat split; vm_compute; discriminate.
  - vm_compute. discriminate.
  - reflexivity.
  - reflexivity.
  - reflexivity.
  - reflexivity.
  - split; [ exact Hfirst | exact Hsecond ].
Defined.

Lemma generated_filename_ignores_microseconds (E1 E2 : environment) :
  year (now E1) = year (now E2) -> month (now E1) = month (now E2) ->
  day (now E1) = day (now E2) -> hour (now E1) = hour (now E2) ->
  minute (now E1) = minute (now E2) -> second (now E1) = second (now E2) ->
  generated_filename E1 = generated_filename E2.
Proof.
  intros Hy Hmo Hd Hh Hmi Hs.
  unfold generated_filename, Datetime.strftime_Ymd_HMS.
  now rewrite Hy, Hmo, Hd, Hh, Hmi, Hs.
Qed.

(** X28: the stamp has one-second precision.  Two saves without a file
    name into the same directory, at readings that agree down to the
    second, return the same JSON path, and when the file system lets them
    both open that file: the second save truncates the JSON file of the
    first. *)
Theorem saves_within_one_second_collide :
  forall (E1 E2 : environment) (data1 data2 : pyval) (output_dir : string)
         (text1 text2 : option string),
    year (now E1) = year (now E2) -> month (now E1) = month (now E2) ->
    day (now E1) = day (now E2) -> hour (now E1) = hour (now E2) ->
    minute (now E1) = minute (now E2) -> second (now E1) = second (now E2) ->
    mkdir_error E1 output_dir = None -> mkdir_error E2 output_dir = None ->
    _extract_text_content data1 = Returned text1 ->
    _extract_text_content data2 = Returned text2 ->
    exists (json_path : string) (md1 md2 : option string),
      outcome (save_to_file E1 data1 None output_dir) = Returned (json_path, md1)
      /\ outcome (save_to_file E2 data2 None output_dir) = Returned (json_path, md2)
      /\ (open_error E1 json_path = None -> open_error E2 json_path = None ->
          In (Open json_path) (trace (save_to_file E1 data1 None output_dir))
          /\ In (Open json_path) (trace (save_to_file E2 data2 None output_dir))).
Proof.
  intros E1 E2 data1 data2 output_dir text1 text2
         Hy Hmo Hd Hh Hmi Hs Hmkdir1 Hmkdir2 Htext1 Htext2.
  assert (Hsame : json_path_of E1 None output_dir = json_path_of E2 None output_dir).
  { unfold json_path_of.
    now rewrite (generated_filename_ignores_microseconds E1 E2 Hy Hmo Hd Hh Hmi Hs). }
  exists (json_path_of E1 None output_dir). do 2 eexists.
  split; [ apply (save_to_file_returns E1 data1 None output_dir text1 Hmkdir1 Htext1) | ].
  split.
  - rewrite Hsame.
    apply (save_to_file_returns E2 data2 None output_dir text2 Hmkdir2 Htext2).
  - intros Hopen1 Hopen2. split.
    + now apply save_to_file_opens_json.
    + rewrite Hsame in *. now apply save_to_file_opens_json.
Qed.

Lemma saves_within_one_second_collide_witness :
  let later :=
    {| year := 2025; month := 3; day := 7;
       hour := 9; minute := 5; second := 0; microsecond := 999999 |} in
  exists (json_path : string) (md1 md2 : option string),
    outcome (save_to_file (quiet_environment sample_clock (Returned PNone))
                          two_items None "output") = Returned (json_path, md1)
    /\ outcome (save_to_file (quiet_environment later (Returned PNone))
                             (PInt 7) None "output") = Returned (json_path, md2)
    /\ (open_error (quiet_environment sample_clock (Returned PNone)) json_path = None ->
        open_error (quiet_environment later (Returned PNone)) json_path = None ->
        In (Open json_path)
           (trace (save_to_file (quiet_environment sample_clock (Returned PNone))
                                two_items None "output"))
        /\ In (Open json_path)
              (trace (save_to_file (quiet_environment later (Returned PNone))
                                   (PInt 7) None "output"))).
Proof.
  cbv zeta.
  apply (saves_within_one_second_collide
           (quiet_environment sample_clock (Returned PNone))
           (quiet_environment
              {| year := 2025; month := 3; day := 7;
                 hour := 9; minute := 5; second := 0; microsecond := 999999 |}
              (Returned PNone))
           two_items (PInt 7) "output"
           (Some ("A" ++ blank_line ++ "B")%string) None);
    reflexivity.
Defined.

(** * Further properties *)

(** ** Serializable form of objects *)

Lemma setitem_absent (d : list (pyval * pyval)) (key : string) (value : pyval) :
  (forall entry, In entry d -> fst entry <> PStr key) ->
  Py.setitem d key value = d ++ [(PStr key, value)].
Proof.
  induction d as [ | [k v] rest IH ]; intros Habsent; simpl; [ reflexivity | ].
  assert (Hrest : Py.setitem rest key value = rest ++ [(PStr key, value)]).
  { apply IH. intros entry Hin. apply Habsent. now right. }
  destruct k; try (now rewrite Hrest).
  destruct (String.eqb s key) eqn:Heq; [ | now rewrite Hrest ].
  apply String.eqb_eq in Heq. subst s.
  exfalso. apply (Habsent (PStr key, v)); [ now left | reflexivity ].
Qed.

Lemma setitem_forallb (Q : pyval * pyval -> bool) (d : list (pyval * pyval))
  (key : string) (value : pyval) :
  forallb Q d = true -> Q (PStr key, value) = true ->
  forallb Q (Py.setitem d key value) = true.
Proof.
  intros Hd Hnew. induction d as [ | [k v] rest IH ]; simpl in *.
  - now rewrite Hnew.
  - apply andb_true_iff in Hd as [ Hkv Hrest ].
    destruct k; simpl; try (now rewrite Hkv, (IH Hrest)).
    destruct (String.eqb s key) eqn:Heq; simpl.
    + apply String.eqb_eq in Heq. subst s. now rewrite Hnew, Hrest.
    + now rewrite Hkv, (IH Hrest).
Qed.

(** X1: an object whose attribute names are distinct is reduced to the
    mapping of its public attributes, in their order, each value reduced;
    the attributes whose name starts with an underscore are left out. *)
Theorem make_serializable_public_attributes :
  forall attrs : list (string * pyval),
    NoDup (map fst attrs) ->
    _make_serializable (PObj attrs)
    = PDict (map (fun kv => (PStr (fst kv), _make_serializable (snd kv)))
                 (filter public attrs)).
Proof.
  intros attrs Hnodup. cbn [_make_serializable]. f_equal.
  assert (Hitems : forall l result,
             NoDup (map fst l) ->
             (forall kv entry, In kv l -> In entry result ->
                               fst entry <> PStr (fst kv)) ->
             (fix items (l : list (string * pyval)) (result : list (pyval * pyval))
                {struct l} : list (pyval * pyval) :=
                match l with
                | [] => result
                | (key, value) :: rest =>
                    if startswith key "_" then items rest result
                    else items rest (Py.setitem result key (_make_serializable value))
                end) l result
             = result ++ map (fun kv => (PStr (fst kv), _make_serializable (snd kv)))
                             (filter public l)).
  { induction l as [ | [key value] rest IH ]; intros result Hnd Hnew.
    - simpl. now rewrite app_nil_r.
    - simpl in Hnd. inversion Hnd as [ | ? ? Hnotin Hnd' ]; subst.
      cbn [filter]. unfold public at 1. cbn [fst].
      destruct (startswith key "_"); cbn [negb].
      + apply IH; [ exact Hnd' | ].
        intros kv entry Hin. apply Hnew. now right.
      + rewrite IH; [ | exact Hnd' | ].
        * rewrite setitem_absent.
          -- rewrite <- app_assoc. reflexivity.
          -- intros entry Hin. apply (Hnew (key, value) entry); [ now left | exact Hin ].
        * intros kv entry Hin Hentry.
          rewrite setitem_absent in Hentry.
          -- apply in_app_or in Hentry as [ Hold | [ <- | [] ] ].
             ++ apply (Hnew kv entry); [ now right | exact Hold ].
             ++ cbn [fst]. intros Heq. injection Heq as Heq. subst key.
                apply Hnotin. now apply (in_map fst) in Hin.
          -- intros entry' Hin'.
             apply (Hnew (key, value) entry'); [ now left | exact Hin' ]. }
  rewrite Hitems; [ reflexivity | exact Hnodup | intros kv entry _ [] ].
Qed.

Lemma make_serializable_public_attributes_witness :
  _make_serializable
    (PObj [("content", PList [text_item "A"]); ("_meta", PInt 7); ("isError", PBool false)])
  = PDict [(PStr "content", PList [PDict [(PStr "text", PStr "A")]]);
           (PStr "isError", PBool false)].
Proof.
  apply (make_serializable_public_attributes
           [("content", PList [text_item "A"]); ("_meta", PInt 7);
            ("isError", PBool false)]).
  repeat constructor; simpl; intuition discriminate.
Defined.

(** X2: the reduction of a value that holds no [bytes] is accepted by the
    JSON encoder. *)
Theorem make_serializable_json_encodable :
  forall v : pyval,
    bytes_free v = true -> Py.json_encodable (_make_serializable v) = true.
Proof.
  induction v as [ | b | z | s | bs | items IH | items IH | entries IH | attrs IH ]
    using pyval_induction; intros Hfree; try reflexivity; try discriminate.
  - simpl in *.
    induction IH as [ | x rest Hx _ IHrest ]; simpl in *; [ reflexivity | ].
    apply andb_true_iff in Hfree as [ Hx' Hrest ].
    now rewrite (Hx Hx'), (IHrest Hrest).
  - simpl in *.
    induction IH as [ | x rest Hx _ IHrest ]; simpl in *; [ reflexivity | ].
    apply andb_true_iff in Hfree as [ Hx' Hrest ].
    now rewrite (Hx Hx'), (IHrest Hrest).
  - simpl in *.
    induction IH as [ | [k v] rest [ Hk _ ] _ IHrest ]; simpl in *; [ reflexivity | ].
    apply andb_true_iff in Hfree as [ Hkv Hrest ].
    apply andb_true_iff in Hkv as [ Hk' _ ].
    now rewrite (Hk Hk'), (IHrest Hrest).
  - cbn [_make_serializable Py.json_encodable]. cbn [bytes_free] in Hfree.
    set (Q := fun kv : pyval * pyval =>
                Py.json_key (fst kv) && Py.json_encodable (snd kv)).
    assert (Hempty : forallb Q [] = true) by reflexivity.
    revert Hempty. generalize (@nil (pyval * pyval)) as result.
    induction IH as [ | [key value] rest Hvalue _ IHrest ]; intros result Hresult;
      [ exact Hresult | ].
    cbn [forallb snd] in Hfree.
    apply andb_true_iff in Hfree as [ Hv Hrest ].
    destruct (startswith key "_"); [ apply IHrest; assumption | ].
    apply IHrest; [ exact Hrest | ].
    apply setitem_forallb; [ exact Hresult | ].
    unfold Q. cbn [fst snd Py.json_key andb]. now apply Hvalue.
Qed.

Lemma make_serializable_json_encodable_witness :
  Py.json_encodable (_make_serializable two_items) = true.
Proof.
  apply make_serializable_json_encodable. reflexivity.
Defined.

(** ** Fragments in traversal order *)

Lemma extract_text_level :
  forall obj level1 level2 text_parts,
    extract_text obj level1 text_parts = extract_text obj level2 text_parts.
Proof.
  assert (Hfold : forall (A : Type) (f : A -> nat -> list pyval -> list pyval)
                         (l : list A) level1 level2,
             Forall (fun x => forall lv1 lv2 parts, f x lv1 parts = f x lv2 parts) l ->
             forall parts,
               fold_left (fun acc x => f x level1 acc) l parts
               = fold_left (fun acc x => f x level2 acc) l parts).
  { intros A f l level1 level2 Hall.
    induction Hall as [ | x rest Hx _ IH ]; intros parts; simpl; [ reflexivity | ].
    rewrite (Hx level1 level2 parts). apply IH. }
  induction obj as [ | b | z | s | bs | items IH | items IH | entries IH | attrs IH ]
    using pyval_induction; intros level1 level2 text_parts; simpl; try reflexivity.
  - apply (Hfold pyval extract_text items (S level1) (S level2) IH).
  - apply (Hfold pyval extract_text items (S level1) (S level2) IH).
  - apply (Hfold (pyval * pyval)%type (fun kv => extract_text (fst kv)) entries
                 (S level1) (S level2)).
    eapply Forall_impl; [ | exact IH ]. intros kv [ Hk _ ]. exact Hk.
  - destruct (Py.lookup "text" attrs); [ reflexivity | ].
    induction IH as [ | [name value] rest Hvalue _ IHrest ]; simpl; [ reflexivity | ].
    destruct (String.eqb name "content"); [ | exact IHrest ].
    simpl in Hvalue.
    pose proof (Hvalue level1 level2 text_parts) as Hv.
    destruct value; simpl in Hv |- *; try reflexivity; exact Hv.
Qed.

Lemma fold_left_fragments (level : nat) (items : list pyval) (parts : list pyval) :
  fold_left (fun acc item => extract_text item level acc) items parts
  = parts ++ flat_map fragments items.
Proof.
  revert parts. induction items as [ | item rest IH ]; intros parts; simpl.
  - now rewrite app_nil_r.
  - rewrite IH, extract_text_appends, (extract_text_level item level 0 []).
    unfold fragments. now rewrite app_assoc.
Qed.

(** X3: the recursion depth plays no part and the accumulator is only
    appended to: a call of the inner function adds the fragments of its
    argument after what was already collected. *)
Theorem extract_text_accumulates :
  forall (obj : pyval) (level : nat) (text_parts : list pyval),
    extract_text obj level text_parts = text_parts ++ fragments obj.
Proof.
  intros obj level text_parts.
  rewrite extract_text_appends. unfold fragments.
  now rewrite (extract_text_level obj level 0 []).
Qed.

(** X4: the fragments of a list or tuple are the fragments of its items,
    one item after the other; the fragments of a mapping are those of its
    keys, whatever the values are. *)
Theorem fragments_of_containers :
  forall (items : list pyval) (entries : list (pyval * pyval)),
    fragments (PList items) = flat_map fragments items
    /\ fragments (PTuple items) = flat_map fragments items
    /\ fragments (PDict entries) = flat_map fragments (map fst entries).
Proof.
  intros items entries. unfold fragments at 1 3 5. cbn [extract_text].
  rewrite (fold_left_map_fst (fun acc k => extract_text k 1 acc)).
  rewrite !fold_left_fragments. repeat split; reflexivity.
Qed.

(** ** Text that cannot be joined *)

Lemma str_join_non_string (sep : string) (parts : list pyval) :
  existsb (fun part => negb (Py.isinstance_str part)) parts = true ->
  str_join sep parts
  = Raised (Exception "TypeError" "sequence item: expected str instance").
Proof.
  induction parts as [ | part rest IH ]; intros Hbad; [ discriminate | ].
  destruct part; try reflexivity.
  simpl in Hbad. cbn [str_join].
  destruct rest as [ | next rest' ]; [ discriminate | ].
  now rewrite (IH Hbad).
Qed.

Lemma extract_text_content_non_string (data : pyval) :
  existsb (fun part => negb (Py.isinstance_str part)) (fragments data) = true ->
  _extract_text_content data
  = Raised (Exception "TypeError" "sequence item: expected str instance").
Proof.
  intros Hbad. unfold _extract_text_content. fold (fragments data).
  rewrite (str_join_non_string blank_line _ Hbad).
  destruct (fragments data); [ discriminate | reflexivity ].
Qed.

(** When the text reduction raises, so does the save, after the JSON
    attempt. *)
Lemma save_to_file_text_error (E : environment) (data : pyval)
  (filename : option string) (output_dir : string) (e : exception) :
  mkdir_error E output_dir = None ->
  _extract_text_content data = Raised e ->
  exists t, save_to_file E data filename output_dir
            = (Mkdir output_dir :: t, Raised e).
Proof.
  intros Hmkdir Htext.
  unfold save_to_file, mkdir. rewrite Hmkdir, Htext.
  unfold open_w, json_dump, write.
  match goal with |- context [ open_error E ?p ] =>
    destruct (open_error E p) as [ e1 | ];
      [ | destruct (Py.json_encodable _);
          [ destruct (write_error E p) as [ e2 | ]
          | destruct (Py.json_container _);
            [ destruct (write_error E p) as [ e2 | ] | ] ] ]
  end; simpl; eexists; reflexivity.
Qed.

(** X5: when one of the fragments found is not a string (a [text] field
    holding [None], say), joining them raises [TypeError]: the text
    reduction raises, and [save_to_file] raises with it once the directory
    exists, since the reduction is called outside any handler. *)
Theorem non_string_fragment_raises :
  forall data : pyval,
    existsb (fun part => negb (Py.isinstance_str part)) (fragments data) = true ->
    _extract_text_content data
    = Raised (Exception "TypeError" "sequence item: expected str instance")
    /\ forall (E : environment) (filename : option string) (output_dir : string),
         mkdir_error E output_dir = None ->
         outcome (save_to_file E data filename output_dir)
         = Raised (Exception "TypeError" "sequence item: expected str instance").
Proof.
  intros data Hbad.
  pose proof (extract_text_content_non_string data Hbad) as Htext.
  split; [ exact Htext | ].
  intros E filename output_dir Hmkdir.
  destruct (save_to_file_text_error E data filename output_dir _ Hmkdir Htext)
    as [ t Hrun ].
  now rewrite Hrun.
Qed.

Lemma non_string_fragment_raises_witness :
  outcome (save_to_file (quiet_environment sample_clock (Returned PNone))
                        (PObj [("content", PList [PObj [("text", PNone)]])])
                        (Some "page") "output")
  = Raised (Exception "TypeError" "sequence item: expected str instance").
Proof.
  apply (proj2 (non_string_fragment_raises
                  (PObj [("content", PList [PObj [("text", PNone)]])]) eq_refl)).
  reflexivity.
Defined.

(** X6: when the text reduction is a non-empty string and the directory
    exists, [save_to_file] returns both paths whatever happens to the two
    files, and the Markdown file, when it can be opened and written,
    receives exactly that text, also when the JSON file could not be
    saved. *)
Theorem save_to_file_markdown :
  forall (E : environment) (data : pyval) (filename : option string)
         (output_dir text : string),
    mkdir_error E output_dir = None ->
    _extract_text_content data = Returned (Some text) ->
    text <> "" ->
    outcome (save_to_file E data filename output_dir)
    = Returned (json_path_of E filename output_dir,
                Some (md_path_of E filename output_dir))
    /\ (open_error E (md_path_of E filename output_dir) = None ->
        write_error E (md_path_of E filename output_dir) = None ->
        In (Write (md_path_of E filename output_dir) (PlainText text))
           (trace (save_to_file E data filename output_dir))).
Proof.
  intros E data filename output_dir text Hmkdir Htext Hnonempty.
  apply String.eqb_neq in Hnonempty.
  unfold save_to_file, mkdir. rewrite Hmkdir, Htext.
  fold (json_path_of E filename output_dir) (md_path_of E filename output_dir).
  set (json_path := json_path_of E filename output_dir).
  set (md_path := md_path_of E filename output_dir).
  unfold open_w, json_dump, write.
  destruct (open_error E md_path) as [ m1 | ] eqn:Hopen;
    [ | destruct (write_error E md_path) as [ m2 | ] eqn:Hwrite ];
    (destruct (open_error E json_path) as [ e1 | ];
     [ | destruct (Py.json_encodable _);
         [ destruct (write_error E json_path) as [ e2 | ]
         | destruct (Py.json_container _);
           [ destruct (write_error E json_path) as [ e2 | ] | ] ] ]);
    simpl; rewrite ?Hnonempty; simpl; rewrite ?Hopen; simpl; rewrite ?Hwrite;
    simpl; (split; [ reflexivity | ]); intros Ho Hw;
    try discriminate; simpl; intuition.
Qed.

Lemma save_to_file_markdown_witness :
  In (Write "output/page.md" (PlainText ("A" ++ blank_line ++ "B")%string))
     (trace (save_to_file
               (refusing_environment
                  (fun path => if String.eqb path "output/page.json"
                               then Some (Exception "PermissionError" "denied")
                               else None)
                  (Returned PNone))
               two_items (Some "page") "output")).
Proof.
  apply (proj2 (save_to_file_markdown
                  (refusing_environment
                     (fun path => if String.eqb path "output/page.json"
                                  then Some (Exception "PermissionError" "denied")
                                  else None)
                     (Returned PNone))
                  two_items (Some "page") "output" ("A" ++ blank_line ++ "B")%string
                  eq_refl eq_refl ltac:(discriminate)));
    reflexivity.
Defined.

(** X7: only a top-level object is reduced before the JSON dump.  A value
    without [__dict__] is handed to the encoder as it is, so when the
    encoder rejects it (a list of content items, say) the JSON file is
    created and receives at most the beginning of the text, up to the
    rejected element and only for a list, tuple or dict; then the error is
    reported.  No complete JSON document is written. *)
Theorem save_to_file_dumps_non_objects_unreduced :
  forall (E : environment) (data : pyval) (filename : option string)
         (output_dir : string),
    Py.has_dict data = false ->
    Py.json_encodable data = false ->
    mkdir_error E output_dir = None ->
    open_error E (json_path_of E filename output_dir) = None ->
    write_error E (json_path_of E filename output_dir) = None ->
    (exists rest,
       trace (save_to_file E data filename output_dir)
       = Mkdir output_dir
         :: Open (json_path_of E filename output_dir)
         :: (if Py.json_container data
             then [Write (json_path_of E filename output_dir) (JsonPrefix data)]
             else [])
         ++ Print (ErrorSavingJson
                     (Exception "TypeError" "Object is not JSON serializable"))
         :: rest)
    /\ forall path value,
         ~ In (Write path (JsonText value))
              (trace (save_to_file E data filename output_dir)).
Proof.
  intros E data filename output_dir Hplain Hrejected Hmkdir Hopen Hwrite.
  unfold save_to_file, mkdir. rewrite Hmkdir, Hplain.
  fold (json_path_of E filename output_dir) (md_path_of E filename output_dir).
  set (json_path := json_path_of E filename output_dir) in *.
  set (md_path := md_path_of E filename output_dir) in *.
  unfold open_w, json_dump, write. cbv beta iota zeta.
  rewrite Hopen, Hrejected, Hwrite.
  destruct (Py.json_container data);
    (destruct (_extract_text_content data) as [ [ text | ] | e ];
     [ destruct (String.eqb text "") eqn:Hempty;
       [ | destruct (open_error E md_path) as [ m1 | ] eqn:Hmd;
           [ | destruct (write_error E md_path) as [ m2 | ] eqn:Hwr ] ] | | ]);
    simpl; rewrite ?Hempty; simpl; rewrite ?Hmd; simpl; rewrite ?Hwr; simpl;
    (split; [ eexists; reflexivity | ]);
    intros path value Hin;
    repeat match goal with
           | H : _ \/ _ |- _ => destruct H
           | H : False |- _ => destruct H
           | H : _ = _ |- _ => discriminate H
           end.
Qed.

Lemma save_to_file_dumps_non_objects_unreduced_witness :
  exists rest,
    trace (save_to_file (quiet_environment sample_clock (Returned PNone))
                        (PList [text_item "A"]) (Some "page") "output")
    = Mkdir "output" :: Open "output/page.json"
      :: Write "output/page.json" (JsonPrefix (PList [text_item "A"]))
      :: Print (ErrorSavingJson
                  (Exception "TypeError" "Object is not JSON serializable"))
      :: rest.
Proof.
  exact (proj1 (save_to_file_dumps_non_objects_unreduced
                  (quiet_environment sample_clock (Returned PNone))
                  (PList [text_item "A"]) (Some "page") "output"
                  eq_refl eq_refl eq_refl eq_refl eq_refl)).
Defined.

(** ** Tables *)

Lemma comprehension_texts (items data : list pyval) :
  Forall2 (fun item text => Py.getattr item "text" = Returned text) items data ->
  comprehension (fun item => lift (Py.getattr item "text")) items
  = ([], Returned data).
Proof.
  induction 1 as [ | item text items data Hitem _ IH ]; cbn [comprehension].
  - reflexivity.
  - rewrite Hitem, bind_returned, IH, bind_silent. reflexivity.
Qed.

Lemma comprehension_missing_text (items : list pyval) :
  Exists (fun item => Py.hasattr item "text" = false) items ->
  comprehension (fun item => lift (Py.getattr item "text")) items
  = ([], Raised (Exception "AttributeError" "text")).
Proof.
  induction items as [ | item rest IH ]; intros Hmissing;
    [ inversion Hmissing | ].
  cbn [comprehension].
  destruct (Py.getattr item "text") as [ text | e ] eqn:Hget.
  - assert (Hrest : Exists (fun item => Py.hasattr item "text" = false) rest).
    { inversion Hmissing as [ ? ? Hhead | ? ? Htail ]; subst; [ | exact Htail ].
      assert (Hhas : Py.hasattr item "text" = true)
        by (apply getattr_hasattr; now exists text).
      congruence. }
    rewrite bind_returned, (IH Hrest), bind_silent. reflexivity.
  - apply getattr_raises in Hget. subst e. reflexivity.
Qed.

(** X8: [save_to_table] never raises, whatever the response, the format
    and the failures of pandas or of the file system; the only file it can
    touch is the table file of a supported format. *)
Theorem save_to_table_never_raises :
  forall (E : environment) (result : pyval) (filename : option string)
         (format : string),
    outcome (save_to_table E result filename format) = Returned tt
    /\ forall p,
         In p (files_touched (trace (save_to_table E result filename format))) ->
         p = table_path filename format /\ (format = "csv" \/ format = "excel").
Proof.
  intros E result filename format.
  unfold save_to_table.
  destruct (negb (Py.hasattr result "content") || _);
    [ split; [ reflexivity | intros p [] ] | ].
  destruct (Py.getattr result "content") as [ content | e ];
    [ | split; [ reflexivity | intros p [] ] ].
  rewrite bind_returned.
  destruct (Py.iterate content) as [ items | e ];
    [ | split; [ reflexivity | intros p [] ] ].
  rewrite bind_returned.
  destruct (comprehension_lift (fun item => Py.getattr item "text") items)
    as [ r Hr ].
  rewrite Hr, bind_silent.
  destruct r as [ data | e ]; [ | split; [ reflexivity | intros p [] ] ].
  destruct (pd_DataFrame E data) as [ df | e ];
    [ | split; [ reflexivity | intros p [] ] ].
  rewrite bind_returned.
  unfold table_path, to_csv, to_excel, open_w, write.
  destruct (String.eqb format "csv") eqn:Hcsv;
    [ apply String.eqb_eq in Hcsv
    | destruct (String.eqb format "excel") eqn:Hexcel;
      [ apply String.eqb_eq in Hexcel | split; [ reflexivity | intros p [] ] ] ];
    match goal with |- context [ open_error E ?path ] =>
      destruct (open_error E path) as [ e1 | ];
        [ | destruct (write_error E path) as [ e2 | ] ]
    end;
    simpl; (split; [ reflexivity | ]); intros p Hin;
    repeat match goal with
           | H : _ \/ _ |- _ => destruct H
           | H : False |- _ => destruct H
           end;
    subst; auto.
Qed.

(** X9: when every item of the content has a [text] field, the table is
    built from those texts in the order of the items, and for a supported
    format exactly one file is opened and written: [name.csv] or
    [name.xlsx]. *)
Theorem save_to_table_writes_texts :
  forall (E : environment) (result content : pyval) (items data : list pyval)
         (df : DataFrame) (filename : option string) (format : string),
    Py.getattr result "content" = Returned content ->
    Py.truthy content = true ->
    Py.iterate content = Returned items ->
    Forall2 (fun item text => Py.getattr item "text" = Returned text) items data ->
    pd_DataFrame E data = Returned df ->
    format = "csv" \/ format = "excel" ->
    open_error E (table_path filename format) = None ->
    write_error E (table_path filename format) = None ->
    save_to_table E result filename format
    = ([Open (table_path filename format);
        Write (table_path filename format) (table_payload format df);
        Print (SavedTable (Str.format_opt filename) format)],
       Returned tt).
Proof.
  intros E result content items data df filename format
         Hget Htruthy Hiter Htexts Hframe Hformat Hopen Hwrite.
  assert (Hhas : Py.hasattr result "content" = true)
    by (apply getattr_hasattr; now exists content).
  unfold save_to_table. rewrite Hhas, Hget, Htruthy. cbn [negb orb].
  rewrite bind_returned, Hiter, bind_returned.
  rewrite (comprehension_texts items data Htexts), bind_silent.
  rewrite Hframe, bind_returned.
  unfold table_path, table_payload, to_csv, to_excel, open_w, write in *.
  destruct Hformat as [ -> | -> ]; cbn [String.eqb Ascii.eqb Bool.eqb] in *;
    rewrite Hopen; simpl; rewrite Hwrite; reflexivity.
Qed.

Lemma save_to_table_writes_texts_witness :
  save_to_table (quiet_environment sample_clock (Returned PNone))
    (PObj [("content", PTuple [text_item "x"; PObj [("text", PInt 2)]])])
    None "excel"
  = ([Open "None.xlsx";
      Write "None.xlsx" (ExcelSheet (one_column [PStr "x"; PInt 2]));
      Print (SavedTable "None" "excel")],
     Returned tt).
Proof.
  apply (save_to_table_writes_texts
           (quiet_environment sample_clock (Returned PNone))
           (PObj [("content", PTuple [text_item "x"; PObj [("text", PInt 2)]])])
           (PTuple [text_item "x"; PObj [("text", PInt 2)]])
           [text_item "x"; PObj [("text", PInt 2)]]
           [PStr "x"; PInt 2]
           (one_column [PStr "x"; PInt 2]) None "excel");
    try reflexivity.
  - repeat constructor.
  - now right.
Defined.

(** X10: one item without a [text] field loses the whole table: nothing
    is opened or written, in any format, and the attribute error is the
    report. *)
Theorem save_to_table_item_without_text :
  forall (E : environment) (result content : pyval) (items : list pyval)
         (filename : option string) (format : string),
    Py.getattr result "content" = Returned content ->
    Py.truthy content = true ->
    Py.iterate content = Returned items ->
    Exists (fun item => Py.hasattr item "text" = false) items ->
    save_to_table E result filename format
    = ([Print (FailedToSaveTable (Exception "AttributeError" "text"))],
       Returned tt).
Proof.
  intros E result content items filename format Hget Htruthy Hiter Hmissing.
  assert (Hhas : Py.hasattr result "content" = true)
    by (apply getattr_hasattr; now exists content).
  unfold save_to_table. rewrite Hhas, Hget, Htruthy. cbn [negb orb].
  rewrite bind_returned, Hiter, bind_returned.
  rewrite (comprehension_missing_text items Hmissing). reflexivity.
Qed.

Lemma save_to_table_item_without_text_witness :
  save_to_table (quiet_environment sample_clock (Returned PNone))
    (PObj [("content", PList [text_item "A"; PObj [("data", PStr "iVBOR")]])])
    (Some "table") "csv"
  = ([Print (FailedToSaveTable (Exception "AttributeError" "text"))],
     Returned tt).
Proof.
  apply (save_to_table_item_without_text _ _
           (PList [text_item "A"; PObj [("data", PStr "iVBOR")]])
           [text_item "A"; PObj [("data", PStr "iVBOR")]]);
    try reflexivity.
  apply Exists_cons_tl. apply Exists_cons_hd. reflexivity.
Defined.

(** ** Outcomes and traces of composed computations *)

Lemma outcome_print (m : message) : outcome (print m) = Returned tt.
Proof.
  reflexivity.
Qed.

Lemma quiet_print (m : message) : quiet (print m).
Proof.
  reflexivity.
Qed.

Lemma quiet_lift {A : Type} (r : result A) : quiet (lift r).
Proof.
  reflexivity.
Qed.

Lemma quiet_bind {A B : Type} (m : M A) (k : A -> M B) :
  quiet m -> (forall a, outcome m = Returned a -> quiet (k a)) -> quiet (bind m k).
Proof.
  unfold quiet. intros Hm Hk.
  rewrite trace_bind, files_touched_app, Hm.
  destruct (outcome m) as [ a | e ]; [ now apply Hk | reflexivity ].
Qed.

Lemma quiet_try_except {A : Type} (body : M A) (handler : exception -> M A) :
  quiet body -> (forall e, quiet (handler e)) -> quiet (try_except body handler).
Proof.
  unfold quiet. intros Hbody Hhandler.
  rewrite trace_try_except, files_touched_app, Hbody.
  destruct (outcome body) as [ a | e ]; [ reflexivity | apply Hhandler ].
Qed.

Lemma for_each_prints {A : Type} (l : list A) (body : A -> M unit) :
  (forall x, outcome (body x) = Returned tt /\ quiet (body x)) ->
  outcome (for_each l body) = Returned tt /\ quiet (for_each l body).
Proof.
  intros Hbody. induction l as [ | x rest [ IHo IHq ] ]; [ split; reflexivity | ].
  cbn [for_each]. destruct (Hbody x) as [ Ho Hq ].
  split.
  - now rewrite outcome_bind, Ho.
  - apply quiet_bind; [ exact Hq | intros _ _; exact IHq ].
Qed.

Lemma optional_attribute_line (result : pyval) (name : string)
  (line : pyval -> message) :
  outcome (if Py.hasattr result name
           then value <- lift (Py.getattr result name) ;; print (line value)
           else ret tt) = Returned tt
  /\ quiet (if Py.hasattr result name
            then value <- lift (Py.getattr result name) ;; print (line value)
            else ret tt).
Proof.
  destruct (Py.hasattr result name) eqn:Hhas; [ | split; reflexivity ].
  apply getattr_hasattr in Hhas as [ value Hget ].
  rewrite Hget, bind_returned. split; reflexivity.
Qed.

Lemma content_lines (result : pyval) :
  outcome (if Py.hasattr result "content"
           then content <- lift (Py.getattr result "content") ;;
                print (ContentType content) ;;
                (if Py.isinstance_list content
                 then print (ContentLength (List.length (Py.iter content))) ;;
                      for_each (combine (seq 0 3) (firstn 3 (Py.iter content)))
                        (fun numbered =>
                           print (ContentItemType (fst numbered) (snd numbered)) ;;
                           print (ContentItem (fst numbered) (snd numbered)))
                 else print (ContentValue content))
           else ret tt) = Returned tt
  /\ quiet (if Py.hasattr result "content"
            then content <- lift (Py.getattr result "content") ;;
                 print (ContentType content) ;;
                 (if Py.isinstance_list content
                  then print (ContentLength (List.length (Py.iter content))) ;;
                       for_each (combine (seq 0 3) (firstn 3 (Py.iter content)))
                         (fun numbered =>
                            print (ContentItemType (fst numbered) (snd numbered)) ;;
                            print (ContentItem (fst numbered) (snd numbered)))
                  else print (ContentValue content))
            else ret tt).
Proof.
  destruct (Py.hasattr result "content") eqn:Hhas; [ | split; reflexivity ].
  apply getattr_hasattr in Hhas as [ content Hget ].
  rewrite Hget, bind_returned.
  destruct (for_each_prints (combine (seq 0 3) (firstn 3 (Py.iter content)))
              (fun numbered =>
                 print (ContentItemType (fst numbered) (snd numbered)) ;;
                 print (ContentItem (fst numbered) (snd numbered))))
    as [ Ho Hq ]; [ intros x; split; reflexivity | ].
  split.
  - rewrite outcome_bind, outcome_print.
    destruct (Py.isinstance_list content); [ | reflexivity ].
    now rewrite outcome_bind, outcome_print.
  - apply quiet_bind; [ apply quiet_print | intros _ _ ].
    destruct (Py.isinstance_list content); [ | apply quiet_print ].
    apply quiet_bind; [ apply quiet_print | intros _ _; exact Hq ].
Qed.

(** The diagnostic lines touch no file, and they raise exactly when the
    response has a [text] attribute that cannot be sliced. *)
Lemma describe_result_runs (result : pyval) :
  quiet (describe_result result)
  /\ outcome (describe_result result)
     = match Py.getattr result "text" with
       | Returned value =>
           match Py.slice_to 500 value with
           | Returned _ => Returned tt
           | Raised e => Raised e
           end
       | Raised _ => Returned tt
       end.
Proof.
  unfold describe_result.
  destruct (content_lines result) as [ Ho1 Hq1 ].
  destruct (optional_attribute_line result "data" ResultData) as [ Ho2 Hq2 ].
  destruct (optional_attribute_line result "results" ResultResults) as [ Ho3 Hq3 ].
  split.
  - apply quiet_bind; [ apply quiet_print | intros _ _ ].
    apply quiet_bind; [ apply quiet_print | intros _ _ ].
    apply quiet_bind; [ exact Hq1 | intros _ _ ].
    apply quiet_bind; [ exact Hq2 | intros _ _ ].
    apply quiet_bind; [ exact Hq3 | intros _ _ ].
    destruct (Py.hasattr result "text"); [ | reflexivity ].
    apply quiet_bind; [ apply quiet_lift | intros value _ ].
    apply quiet_bind; [ apply quiet_lift | intros shown _; apply quiet_print ].
  - rewrite outcome_bind, outcome_print, outcome_bind, outcome_print.
    rewrite outcome_bind, Ho1, outcome_bind, Ho2, outcome_bind, Ho3.
    destruct (Py.hasattr result "text") eqn:Hhas.
    + apply getattr_hasattr in Hhas as [ value Hget ].
      rewrite Hget, bind_returned.
      destruct (Py.slice_to 500 value) as [ shown | e ]; reflexivity.
    + destruct (Py.getattr result "text") as [ value | e ] eqn:Hget;
        [ | reflexivity ].
      assert (Py.hasattr result "text" = true)
        by (apply getattr_hasattr; now exists value).
      congruence.
Qed.

(** ** The facade, beyond a failing call *)

Lemma outcome_lift {A : Type} (r : result A) : outcome (lift r) = r.
Proof.
  reflexivity.
Qed.

Lemma outcome_ret {A : Type} (a : A) : outcome (ret a) = Returned a.
Proof.
  reflexivity.
Qed.

Ltac outcomes :=
  cbv zeta;
  repeat first
    [ rewrite outcome_try_except | rewrite outcome_bind | rewrite outcome_print
    | rewrite outcome_lift | rewrite outcome_ret ].

Ltac split_result x :=
  lazymatch x with
  | match ?y with Returned _ => _ | Raised _ => _ end => split_result y
  | _ => destruct x eqn:?
  end.

(** X11: a facade operation never raises, and what it returns is either
    [None] or exactly the value the remote tool returned. *)
Theorem facade_returns_response_or_none :
  forall (E : environment) (op : operation),
    exists v : pyval,
      outcome (invoke E op) = Returned v
      /\ (v = PNone
          \/ session_call_tool E (fst (request op)) (snd (request op)) = Returned v).
Proof.
  intros E op.
  destruct op; cbn [invoke request fst snd];
    unfold crawl_url, firecrawl_scrape, firecrawl_extract, search;
    repeat (outcomes;
            match goal with
            | |- context [ match ?x with Returned _ => _ | Raised _ => _ end ] =>
                split_result x
            end);
    outcomes; eexists; (split; [ reflexivity | ]);
    first [ left; reflexivity | right; reflexivity ].
Qed.

(** X12: without saving, a crawl or a search whose remote call returns
    hands that response back unchanged, prints the success line and
    touches no file. *)
Theorem crawl_and_search_return_the_response :
  forall (E : environment) (text : string) (filename : option string)
         (kwargs : list (string * pyval)) (response : pyval),
    (session_call_tool E "crawl_url" (tool_params "url" (PStr text) kwargs)
     = Returned response ->
     crawl_url E text false filename kwargs
     = ([Print (CrawlOk text)], Returned response))
    /\ (session_call_tool E "search" (tool_params "query" (PStr text) kwargs)
        = Returned response ->
        search E text false filename kwargs
        = ([Print (SearchOk text)], Returned response)).
Proof.
  intros E text filename kwargs response. split; intros Hcall.
  - unfold crawl_url. rewrite Hcall, bind_returned. reflexivity.
  - unfold search. rewrite Hcall, bind_returned. reflexivity.
Qed.

Lemma crawl_and_search_return_the_response_witness :
  crawl_url (quiet_environment sample_clock (Returned two_items))
            "https://example.com" false None [("limit", PInt 3)]
  = ([Print (CrawlOk "https://example.com")], Returned two_items).
Proof.
  apply (proj1 (crawl_and_search_return_the_response
                  (quiet_environment sample_clock (Returned two_items))
                  "https://example.com" None [("limit", PInt 3)] two_items)).
  reflexivity.
Defined.

(** X13: [firecrawl_scrape] loses a response it has received when that
    response has a [text] attribute that cannot be sliced ([None] or a
    number): the diagnostic line raises, the handler returns [None], and
    no file is touched even when saving was asked for. *)
Theorem scrape_loses_response_with_unsliceable_text :
  forall (E : environment) (url : string) (save : bool) (filename : option string)
         (kwargs : list (string * pyval)) (response value : pyval) (e : exception),
    session_call_tool E "firecrawl_scrape" (tool_params "url" (PStr url) kwargs)
    = Returned response ->
    Py.getattr response "text" = Returned value ->
    Py.slice_to 500 value = Raised e ->
    outcome (firecrawl_scrape E url save filename kwargs) = Returned PNone
    /\ quiet (firecrawl_scrape E url save filename kwargs).
Proof.
  intros E url save filename kwargs response value e Hcall Htext Hslice.
  destruct (describe_result_runs response) as [ Hquiet Hout ].
  rewrite Htext, Hslice in Hout.
  unfold firecrawl_scrape. cbv zeta. split.
  - outcomes. rewrite Hcall. outcomes. rewrite Hout. reflexivity.
  - apply quiet_try_except; [ | intros e'; reflexivity ].
    apply quiet_bind; [ apply quiet_print | intros _ _ ].
    apply quiet_bind; [ apply quiet_lift | intros a Ha ].
    rewrite outcome_lift, Hcall in Ha. injection Ha as <-.
    apply quiet_bind; [ exact Hquiet | intros a Ha ].
    rewrite Hout in Ha. discriminate.
Qed.

Lemma scrape_loses_response_with_unsliceable_text_witness :
  outcome (firecrawl_scrape
             (quiet_environment sample_clock (Returned (PObj [("text", PNone)])))
             "https://example.com" true None [])
  = Returned PNone.
Proof.
  apply (scrape_loses_response_with_unsliceable_text
           (quiet_environment sample_clock (Returned (PObj [("text", PNone)])))
           "https://example.com" true None [] (PObj [("text", PNone)]) PNone
           (Exception "TypeError" "object is not subscriptable"));
    reflexivity.
Defined.

(** X14: when saving was asked for and the output directory cannot be
    created, a crawl or a search returns [None] although the remote call
    succeeded; the error of the directory is what is reported. *)
Theorem save_failure_discards_the_response :
  forall (E : environment) (text : string) (filename : option string)
         (kwargs : list (string * pyval)) (response : pyval) (e : exception),
    mkdir_error E default_output_dir = Some e ->
    (session_call_tool E "crawl_url" (tool_params "url" (PStr text) kwargs)
     = Returned response ->
     crawl_url E text true filename kwargs
     = ([Print (CrawlOk text); Print (CrawlError text e)], Returned PNone))
    /\ (session_call_tool E "search" (tool_params "query" (PStr text) kwargs)
        = Returned response ->
        search E text true filename kwargs
        = ([Print (SearchOk text); Print (SearchError text e)], Returned PNone)).
Proof.
  intros E text filename kwargs response e Hmkdir. split; intros Hcall.
  - unfold crawl_url, save_to_file, mkdir.
    rewrite Hcall, bind_returned, Hmkdir. reflexivity.
  - unfold search, save_to_file, mkdir.
    rewrite Hcall, bind_returned, Hmkdir. reflexivity.
Qed.

Lemma save_failure_discards_the_response_witness :
  search (refusing_environment
            (fun path => if String.eqb path "output"
                         then Some (Exception "FileExistsError" "output")
                         else None)
            (Returned two_items))
         "rocq prover" true None []
  = ([Print (SearchOk "rocq prover");
      Print (SearchError "rocq prover" (Exception "FileExistsError" "output"))],
     Returned PNone).
Proof.
  apply (proj2 (save_failure_discards_the_response
                  (refusing_environment
                     (fun path => if String.eqb path "output"
                                  then Some (Exception "FileExistsError" "output")
                                  else None)
                     (Returned two_items))
                  "rocq prover" None [] two_items
                  (Exception "FileExistsError" "output") eq_refl)).
  reflexivity.
Defined.

(** X15: a crawl that saves a response in which some fragment is not a
    string returns [None]: the directory is created and the JSON save
    attempted, then the text reduction raises and the handler of the
    facade reports the [TypeError]. *)
Theorem crawl_with_unjoinable_text_returns_none :
  forall (E : environment) (url : string) (filename : option string)
         (kwargs : list (string * pyval)) (response : pyval),
    session_call_tool E "crawl_url" (tool_params "url" (PStr url) kwargs)
    = Returned response ->
    mkdir_error E default_output_dir = None ->
    existsb (fun part => negb (Py.isinstance_str part)) (fragments response) = true ->
    exists t,
      crawl_url E url true filename kwargs
      = (Print (CrawlOk url) :: Mkdir default_output_dir :: t
           ++ [Print (CrawlError url
                        (Exception "TypeError"
                           "sequence item: expected str instance"))],
         Returned PNone).
Proof.
  intros E url filename kwargs response Hcall Hmkdir Hbad.
  pose proof (extract_text_content_non_string response Hbad) as Htext.
  unfold crawl_url. rewrite Hcall, bind_returned.
  match goal with |- context [ save_to_file E response ?f ?d ] =>
    destruct (save_to_file_text_error E response f d _ Hmkdir Htext) as [ t Hrun ];
    rewrite Hrun
  end.
  exists t. simpl. rewrite ?app_nil_r. reflexivity.
Qed.

Lemma crawl_with_unjoinable_text_returns_none_witness :
  outcome (crawl_url
             (quiet_environment sample_clock
                (Returned (PObj [("content", PList [PObj [("text", PInt 404)]])])))
             "https://example.com" true None [])
  = Returned PNone.
Proof.
  destruct (crawl_with_unjoinable_text_returns_none
              (quiet_environment sample_clock
                 (Returned (PObj [("content", PList [PObj [("text", PInt 404)]])])))
              "https://example.com" None []
              (PObj [("content", PList [PObj [("text", PInt 404)]])])
              eq_refl eq_refl eq_refl) as [ t Hrun ].
  now rewrite Hrun.
Defined.

(** X16: when the parameters of an extraction cannot be encoded as JSON
    (a schema holding bytes or an object), [firecrawl_extract] returns
    [None] after reporting the [TypeError], whatever the session would
    have answered and whatever saving was asked for. *)
Theorem extract_with_unencodable_parameters :
  forall (E : environment) (urls prompt system_prompt schema : pyval)
         (a w s save excel : bool) (filename : option string),
    Py.json_encodable
      (snd (request (FirecrawlExtract urls prompt system_prompt schema
                                      a w s save excel filename))) = false ->
    firecrawl_extract E urls prompt system_prompt schema a w s save excel filename
    = ([Print (ExtractError
                 (Exception "TypeError" "Object is not JSON serializable"));
        Print (Traceback
                 (Exception "TypeError" "Object is not JSON serializable"))],
       Returned PNone).
Proof.
  intros E urls prompt system_prompt schema a w s save excel filename Hrejected.
  cbn [request snd] in Hrejected.
  unfold firecrawl_extract, json_dumps. cbv zeta.
  rewrite Hrejected. reflexivity.
Qed.

Lemma extract_with_unencodable_parameters_witness :
  outcome (firecrawl_extract (quiet_environment sample_clock (Returned two_items))
             (PList [PStr "https://example.com"]) (PStr "titles") PNone
             (PObj [("type", PStr "object")]) false false false true true None)
  = Returned PNone.
Proof.
  rewrite (extract_with_unencodable_parameters
             (quiet_environment sample_clock (Returned two_items))
             (PList [PStr "https://example.com"]) (PStr "titles") PNone
             (PObj [("type", PStr "object")]) false false false true true None
             eq_refl).
  reflexivity.
Defined.

(** ** Derived file names *)




(** X18: an extraction asked to save a table without a file name writes
    the sheet to the file [None.xlsx]: the missing name is formatted as the
    text [None]. *)
Theorem extract_table_without_name :
  forall (E : environment) (urls prompt system_prompt schema : pyval)
         (a w s : bool) (response content : pyval) (items data : list pyval)
         (df : DataFrame),
    Py.json_encodable
      (snd (request (FirecrawlExtract urls prompt system_prompt schema
                                      a w s false true None))) = true ->
    session_call_tool E "firecrawl_extract"
      (snd (request (FirecrawlExtract urls prompt system_prompt schema
                                      a w s false true None)))
    = Returned response ->
    Py.getattr response "content" = Returned content ->
    Py.truthy content = true ->
    Py.iterate content = Returned items ->
    Forall2 (fun item text => Py.getattr item "text" = Returned text) items data ->
    pd_DataFrame E data = Returned df ->
    open_error E "None.xlsx" = None ->
    write_error E "None.xlsx" = None ->
    firecrawl_extract E urls prompt system_prompt schema a w s false true None
    = ([Print (ExtractParams
                 (snd (request (FirecrawlExtract urls prompt system_prompt schema
                                                 a w s false true None))));
        Open "None.xlsx";
        Write "None.xlsx" (ExcelSheet df);
        Print (SavedTable "None" "excel")],
       Returned response).
Proof.
  intros E urls prompt system_prompt schema a w s response content items data df
         Hencodable Hcall Hget Htruthy Hiter Htexts Hframe Hopen Hwrite.
  cbn [request snd] in *.
  assert (Hhas : Py.hasattr response "content" = true)
    by (apply getattr_hasattr; now exists content).
  assert (Htable :
    save_to_table E response None "excel"
    = ([Open "None.xlsx"; Write "None.xlsx" (ExcelSheet df);
        Print (SavedTable "None" "excel")], Returned tt)).
  { unfold save_to_table. rewrite Hhas, Hget, Htruthy. cbn [negb orb].
    rewrite bind_returned, Hiter, bind_returned.
    rewrite (comprehension_texts items data Htexts), bind_silent.
    rewrite Hframe, bind_returned.
    unfold to_excel, open_w, write. simpl. rewrite Hopen. simpl.
    rewrite Hwrite. reflexivity. }
  unfold firecrawl_extract, json_dumps. cbv zeta.
  rewrite Hencodable, Hcall.
  cbn [bind ret lift print emit]. rewrite Htable. reflexivity.
Qed.

Lemma extract_table_without_name_witness :
  In (Write "None.xlsx" (ExcelSheet (one_column [PStr "A"; PStr "B"])))
     (trace (firecrawl_extract (quiet_environment sample_clock (Returned two_items))
               (PList [PStr "https://example.com"]) (PStr "reviews") PNone PNone
               false false false false true None)).
Proof.
  rewrite (extract_table_without_name
             (quiet_environment sample_clock (Returned two_items))
             (PList [PStr "https://example.com"]) (PStr "reviews") PNone PNone
             false false false two_items
             (PList [text_item "A"; text_item "B"])
             [text_item "A"; text_item "B"] [PStr "A"; PStr "B"]
             (one_column [PStr "A"; PStr "B"])
             eq_refl eq_refl eq_refl eq_refl eq_refl
             ltac:(repeat constructor) eq_refl eq_refl eq_refl).
  simpl. intuition.
Defined.

(** ** Listing resources *)

Lemma resource_lines_run (items : list pyval) (lines : list message) :
  Forall2 (fun item line =>
             exists uri name,
               Py.getattr item "uri" = Returned uri
               /\ Py.getattr item "name" = Returned name
               /\ line = ResourceLine uri name) items lines ->
  for_each items (fun resource =>
    uri <- lift (Py.getattr resource "uri") ;;
    name <- lift (Py.getattr resource "name") ;;
    print (ResourceLine uri name))
  = (map Print lines, Returned tt).
Proof.
  induction 1 as [ | item line items lines (uri & name & Huri & Hname & ->) _ IH ];
    cbn [for_each]; [ reflexivity | ].
  rewrite Huri, bind_returned, Hname, bind_returned, IH. reflexivity.
Qed.

Lemma resource_lines_fail (items : list pyval) :
  Exists (fun item => Py.hasattr item "uri" = false
                      \/ Py.hasattr item "name" = false) items ->
  exists e,
    outcome (for_each items (fun resource =>
      uri <- lift (Py.getattr resource "uri") ;;
      name <- lift (Py.getattr resource "name") ;;
      print (ResourceLine uri name))) = Raised e.
Proof.
  induction items as [ | item rest IH ]; intros Hbad; [ inversion Hbad | ].
  cbn [for_each]. rewrite outcome_bind.
  destruct (Py.getattr item "uri") as [ uri | e ] eqn:Huri;
    [ | rewrite bind_raised; now exists e ].
  rewrite bind_returned.
  destruct (Py.getattr item "name") as [ name | e ] eqn:Hname;
    [ | rewrite bind_raised; now exists e ].
  rewrite bind_returned, outcome_print.
  apply IH.
  inversion Hbad as [ ? ? [ Hu | Hn ] | ? ? Htail ]; subst; [ | | exact Htail ].
  - assert (Py.hasattr item "uri" = true)
      by (apply getattr_hasattr; now exists uri).
    congruence.
  - assert (Py.hasattr item "name" = true)
      by (apply getattr_hasattr; now exists name).
    congruence.
Qed.

Lemma bind_print {B : Type} (m : message) (k : unit -> M B) :
  bind (print m) k = (Print m :: trace (k tt), outcome (k tt)).
Proof.
  unfold bind, print, emit, trace, outcome. now destruct (k tt).
Qed.

(** X19: whatever error the session raises, [list_resources] prints one
    line and returns the empty list; the two branches of its handler
    differ by the line only. *)
Theorem list_resources_any_error :
  forall (E : environment) (e : exception),
    session_list_resources E = Raised e ->
    exists m : message,
      list_resources E = ([Print m], Returned (PList []))
      /\ (m = ResourcesNotSupported \/ m = ErrorListingResources e).
Proof.
  intros E e Hcall. unfold list_resources. rewrite Hcall, bind_raised.
  unfold try_except.
  destruct (Py.contains "Method not found" (exc_message e)).
  - exists ResourcesNotSupported. split; [ reflexivity | now left ].
  - exists (ErrorListingResources e). split; [ reflexivity | now right ].
Qed.

Lemma list_resources_any_error_witness :
  exists m : message,
    list_resources (quiet_environment sample_clock
                      (Raised (Exception "TimeoutError" "timed out")))
    = ([Print m], Returned (PList []))
    /\ (m = ResourcesNotSupported
        \/ m = ErrorListingResources (Exception "TimeoutError" "timed out")).
Proof.
  apply list_resources_any_error. reflexivity.
Defined.

(** X20: when every advertised resource has a [uri] and a [name],
    [list_resources] prints the heading and one line per resource, in
    order, and returns the advertised collection as it is. *)
Theorem list_resources_lists_in_order :
  forall (E : environment) (resources listed : pyval) (items : list pyval)
         (lines : list message),
    session_list_resources E = Returned resources ->
    Py.getattr resources "resources" = Returned listed ->
    Py.iterate listed = Returned items ->
    Forall2 (fun item line =>
               exists uri name,
                 Py.getattr item "uri" = Returned uri
                 /\ Py.getattr item "name" = Returned name
                 /\ line = ResourceLine uri name) items lines ->
    list_resources E
    = (Print AvailableResources :: map Print lines, Returned listed).
Proof.
  intros E resources listed items lines Hcall Hlisted Hiter Hlines.
  unfold list_resources.
  rewrite Hcall, bind_returned, bind_print. cbv beta.
  rewrite Hlisted, !bind_returned, Hiter, !bind_returned.
  rewrite (resource_lines_run items lines Hlines).
  cbn [bind ret trace outcome fst snd try_except]. now rewrite app_nil_r.
Qed.

Lemma list_resources_lists_in_order_witness :
  list_resources
    (quiet_environment sample_clock
       (Returned (PObj [("resources",
                         PList [PObj [("uri", PStr "file:///a"); ("name", PStr "a")];
                                PObj [("uri", PStr "file:///b"); ("name", PStr "b")]])])))
  = ([Print AvailableResources;
      Print (ResourceLine (PStr "file:///a") (PStr "a"));
      Print (ResourceLine (PStr "file:///b") (PStr "b"))],
     Returned (PList [PObj [("uri", PStr "file:///a"); ("name", PStr "a")];
                      PObj [("uri", PStr "file:///b"); ("name", PStr "b")]])).
Proof.
  apply (list_resources_lists_in_order _
           (PObj [("resources",
                   PList [PObj [("uri", PStr "file:///a"); ("name", PStr "a")];
                          PObj [("uri", PStr "file:///b"); ("name", PStr "b")]])])
           (PList [PObj [("uri", PStr "file:///a"); ("name", PStr "a")];
                   PObj [("uri", PStr "file:///b"); ("name", PStr "b")]])
           [PObj [("uri", PStr "file:///a"); ("name", PStr "a")];
            PObj [("uri", PStr "file:///b"); ("name", PStr "b")]]
           [ResourceLine (PStr "file:///a") (PStr "a");
            ResourceLine (PStr "file:///b") (PStr "b")]);
    try reflexivity.
  repeat constructor; do 2 eexists; repeat split; reflexivity.
Defined.

(** X21: one advertised resource without a [uri] or a [name] makes
    [list_resources] return the empty list, although the session answered
    and the other resources are well formed. *)
Theorem list_resources_malformed_entry :
  forall (E : environment) (resources listed : pyval) (items : list pyval),
    session_list_resources E = Returned resources ->
    Py.getattr resources "resources" = Returned listed ->
    Py.iterate listed = Returned items ->
    Exists (fun item => Py.hasattr item "uri" = false
                        \/ Py.hasattr item "name" = false) items ->
    outcome (list_resources E) = Returned (PList []).
Proof.
  intros E resources listed items Hcall Hlisted Hiter Hbad.
  destruct (resource_lines_fail items Hbad) as [ e He ].
  unfold list_resources.
  rewrite Hcall, bind_returned, bind_print. cbv beta.
  rewrite Hlisted, !bind_returned, Hiter, !bind_returned.
  match goal with |- context [ for_each items ?body ] =>
    destruct (for_each items body) as [ t [ [] | e' ] ]
  end; cbn [outcome snd] in He; [ discriminate | ].
  cbn [bind trace outcome fst snd try_except].
  destruct (Py.contains "Method not found" (exc_message e')); reflexivity.
Qed.

Lemma list_resources_malformed_entry_witness :
  outcome (list_resources
             (quiet_environment sample_clock
                (Returned (PObj [("resources",
                                  PList [PObj [("uri", PStr "file:///a");
                                               ("name", PStr "a")];
                                         PObj [("uri", PStr "file:///b")]])]))))
  = Returned (PList []).
Proof.
  apply (list_resources_malformed_entry _
           (PObj [("resources",
                   PList [PObj [("uri", PStr "file:///a"); ("name", PStr "a")];
                          PObj [("uri", PStr "file:///b")]])])
           (PList [PObj [("uri", PStr "file:///a"); ("name", PStr "a")];
                   PObj [("uri", PStr "file:///b")]])
           [PObj [("uri", PStr "file:///a"); ("name", PStr "a")];
            PObj [("uri", PStr "file:///b")]]);
    try reflexivity.
  apply Exists_cons_tl. apply Exists_cons_hd. now right.
Defined.

(** ** Session set-up *)

Lemma first_existing_some (path_exists : string -> bool) (paths : list string)
  (path : string) :
  first_existing path_exists paths = Some path ->
  exists before after,
    paths = before ++ path :: after
    /\ path_exists path = true
    /\ forallb (fun candidate => negb (path_exists candidate)) before = true.
Proof.
  induction paths as [ | candidate rest IH ]; simpl; [ discriminate | ].
  destruct (path_exists candidate) eqn:Hexists.
  - intros H. injection H as <-. now exists [], rest.
  - intros H. destruct (IH H) as (before & after & -> & Hpath & Hbefore).
    exists (candidate :: before), after. simpl. now rewrite Hexists.
Qed.

Lemma first_existing_none (path_exists : string -> bool) (paths : list string) :
  first_existing path_exists paths = None <->
  forall candidate, In candidate paths -> path_exists candidate = false.
Proof.
  induction paths as [ | candidate rest IH ]; simpl.
  - split; [ intros _ c [] | reflexivity ].
  - destruct (path_exists candidate) eqn:Hexists.
    + split; [ discriminate | ].
      intros H. specialize (H candidate (or_introl eq_refl)). congruence.
    + rewrite IH. split.
      * intros H c [ <- | Hin ]; [ exact Hexists | now apply H ].
      * intros H c Hin. apply H. now right.
Qed.

(** X22: the parameters [__init__] stores run [node] on one script with
    the given environment.  The script is the path given, which is not
    checked; or, when none is given, the first of the three candidates
    that exists, all candidates before it being absent. *)
Theorem init_server_path :
  forall (path_exists : string -> bool) (environ : list (string * string))
         (given : option string) (params : StdioServerParameters),
    __init__ path_exists environ given = Returned params ->
    command params = "node" /\ env params = environ
    /\ exists path,
         args params = [path]
         /\ match given with
            | Some chosen => path = chosen
            | None =>
                exists before after,
                  possible_paths = before ++ path :: after
                  /\ path_exists path = true
                  /\ forallb (fun candidate => negb (path_exists candidate)) before
                     = true
            end.
Proof.
  intros path_exists environ given params. unfold __init__.
  destruct given as [ chosen | ].
  - intros H. injection H as <-. repeat split. now exists chosen.
  - destruct (first_existing path_exists possible_paths) as [ path | ] eqn:Hfirst;
      [ | discriminate ].
    intros H. injection H as <-. repeat split.
    exists path. split; [ reflexivity | ]. now apply first_existing_some.
Qed.

Lemma init_server_path_witness :
  exists path,
    args {| command := "node"; args := ["./dist/index.js"]; env := [] |} = [path]
    /\ exists before after,
         possible_paths = before ++ path :: after
         /\ String.eqb path "./dist/index.js" = true
         /\ forallb (fun candidate => negb (String.eqb candidate "./dist/index.js"))
                    before = true.
Proof.
  exact (proj2 (proj2 (init_server_path
                         (fun path => String.eqb path "./dist/index.js") [] None
                         {| command := "node"; args := ["./dist/index.js"]; env := [] |}
                         eq_refl))).
Defined.

(** X23: [__init__] raises exactly when no path is given and none of the
    three candidates exists; the error is [FileNotFoundError]. *)
Theorem init_raises_without_candidate :
  forall (path_exists : string -> bool) (environ : list (string * string))
         (given : option string),
    (exists e, __init__ path_exists environ given = Raised e)
    <-> (given = None
         /\ forall candidate, In candidate possible_paths ->
                              path_exists candidate = false).
Proof.
  intros path_exists environ given. unfold __init__.
  destruct given as [ chosen | ].
  - split; [ intros [ e H ]; discriminate | intros [ H _ ]; discriminate ].
  - rewrite <- first_existing_none.
    destruct (first_existing path_exists possible_paths) as [ path | ].
    + split; [ intros [ e H ]; discriminate | intros [ _ H ]; discriminate ].
    + split; [ now split | intros _; now eexists ].
Qed.

(** X24: on a transport that accepts every call, [connect] enters the
    stdio client, then the session, then initializes; [disconnect] then
    leaves them in the opposite order, the session first.  On a client
    that never connected, [disconnect] leaves nothing and only prints its
    line. *)
Theorem connect_then_disconnect :
  forall T : transport,
    stdio_enter_error T = None -> session_enter_error T = None ->
    initialize_error T = None ->
    session_exit_error T = None -> stdio_exit_error T = None ->
    let connected := {| has_stdio_client := true; has_session := true |} in
    connect T fresh_client
    = ([StdioEnter; SessionEnter; Initialize; Line Connected], connected, Returned tt)
    /\ disconnect T connected
       = ([SessionExit; StdioExit; Line Disconnected], connected, Returned tt)
    /\ disconnect T fresh_client
       = ([Line Disconnected], fresh_client, Returned tt).
Proof.
  intros T H1 H2 H3 H4 H5. cbv zeta. unfold connect, disconnect.
  cbn [has_session has_stdio_client fresh_client].
  rewrite H1, H2, H3, H4, H5. repeat split; reflexivity.
Qed.

Lemma connect_then_disconnect_witness :
  disconnect (quiet_transport (Returned PNone))
             {| has_stdio_client := true; has_session := true |}
  = ([SessionExit; StdioExit; Line Disconnected],
     {| has_stdio_client := true; has_session := true |}, Returned tt).
Proof.
  exact (proj1 (proj2 (connect_then_disconnect (quiet_transport (Returned PNone))
                         eq_refl eq_refl eq_refl eq_refl eq_refl))).
Defined.

(** X25: after a [connect] that failed, the client has its stdio client
    attribute, and it has its session attribute exactly when the stdio
    client had been entered.  A following [disconnect] therefore leaves
    the stdio client in every case, also when entering it was what failed,
    and leaves the session as soon as it had been created, also when it
    was never entered. *)
Theorem disconnect_after_failed_connect :
  forall (T : transport) (events : list session_event) (self : client)
         (e : exception),
    connect T fresh_client = (events, self, Raised e) ->
    has_stdio_client self = true
    /\ (has_session self = true <-> In StdioEnter events)
    /\ (session_exit_error T = None -> stdio_exit_error T = None ->
        disconnect T self
        = ((if has_session self then [SessionExit] else [])
             ++ [StdioExit; Line Disconnected],
           self, Returned tt)).
Proof.
  intros T events self e. unfold connect, disconnect.
  destruct (stdio_enter_error T) as [ e1 | ];
    [ | destruct (session_enter_error T) as [ e2 | ];
        [ | destruct (initialize_error T) as [ e3 | ] ] ];
    intros H; inversion H; subst; clear H;
    cbn [has_session has_stdio_client fresh_client];
    (split; [ reflexivity | split ]);
    try (intros Hs Hx; rewrite ?Hs, ?Hx; reflexivity);
    split; try discriminate; simpl; intuition discriminate.
Qed.

Lemma disconnect_after_failed_connect_witness :
  let T := {| stdio_enter_error := Some (Exception "FileNotFoundError" "node");
              session_enter_error := None; initialize_error := None;
              session_exit_error := None; stdio_exit_error := None;
              session_list_tools := Returned PNone |} in
  disconnect T {| has_stdio_client := true; has_session := false |}
  = ([StdioExit; Line Disconnected],
     {| has_stdio_client := true; has_session := false |}, Returned tt).
Proof.
  cbv zeta.
  exact (proj2 (proj2 (disconnect_after_failed_connect
                         {| stdio_enter_error :=
                              Some (Exception "FileNotFoundError" "node");
                            session_enter_error := None; initialize_error := None;
                            session_exit_error := None; stdio_exit_error := None;
                            session_list_tools := Returned PNone |}
                         [] {| has_stdio_client := true; has_session := false |}
                         (Exception "FileNotFoundError" "node") eq_refl))
               eq_refl eq_refl).
Defined.

(** ** Listing tools *)

Lemma tool_lines_run (items : list pyval) (lines : list session_line) :
  Forall2 (fun item line =>
             exists name description,
               Py.getattr item "name" = Returned name
               /\ Py.getattr item "description" = Returned description
               /\ line = ToolLine name description) items lines ->
  tool_lines items = (map Line lines, Returned tt).
Proof.
  induction 1 as [ | item line items lines (name & description & Hn & Hd & ->) _ IH ];
    cbn [tool_lines]; [ reflexivity | ].
  now rewrite Hn, Hd, IH.
Qed.

Lemma tool_lines_fail (items : list pyval) :
  Exists (fun item => Py.hasattr item "name" = false
                      \/ Py.hasattr item "description" = false) items ->
  exists events e, tool_lines items = (events, Raised e).
Proof.
  induction items as [ | item rest IH ]; intros Hbad; [ inversion Hbad | ].
  cbn [tool_lines].
  destruct (Py.getattr item "name") as [ name | e ] eqn:Hn; [ | now eexists _, e ].
  destruct (Py.getattr item "description") as [ description | e ] eqn:Hd;
    [ | now eexists _, e ].
  assert (Hrest : Exists (fun item => Py.hasattr item "name" = false
                                      \/ Py.hasattr item "description" = false) rest).
  { inversion Hbad as [ ? ? [ Hu | Hu ] | ? ? Htail ]; subst; [ | | exact Htail ].
    - assert (Py.hasattr item "name" = true)
        by (apply getattr_hasattr; now exists name).
      congruence.
    - assert (Py.hasattr item "description" = true)
        by (apply getattr_hasattr; now exists description).
      congruence. }
  destruct (IH Hrest) as (events & e & Hrun). rewrite Hrun. now eexists _, e.
Qed.

(** X26: when every advertised tool has a [name] and a [description],
    [list_tools] prints the heading and one line per tool, in order, and
    returns the advertised collection as it is. *)
Theorem list_tools_lists_in_order :
  forall (T : transport) (tools listed : pyval) (items : list pyval)
         (lines : list session_line),
    session_list_tools T = Returned tools ->
    Py.getattr tools "tools" = Returned listed ->
    Py.iterate listed = Returned items ->
    Forall2 (fun item line =>
               exists name description,
                 Py.getattr item "name" = Returned name
                 /\ Py.getattr item "description" = Returned description
                 /\ line = ToolLine name description) items lines ->
    list_tools T = (Line AvailableTools :: map Line lines, listed).
Proof.
  intros T tools listed items lines Hcall Hlisted Hiter Hlines.
  unfold list_tools.
  now rewrite Hcall, Hlisted, Hiter, (tool_lines_run items lines Hlines).
Qed.

Lemma list_tools_lists_in_order_witness :
  list_tools
    (quiet_transport
       (Returned (PObj [("tools",
                         PList [PObj [("name", PStr "firecrawl_scrape");
                                      ("description", PStr "Scrape a page")]])])))
  = ([Line AvailableTools;
      Line (ToolLine (PStr "firecrawl_scrape") (PStr "Scrape a page"))],
     PList [PObj [("name", PStr "firecrawl_scrape");
                  ("description", PStr "Scrape a page")]]).
Proof.
  apply (list_tools_lists_in_order _
           (PObj [("tools",
                   PList [PObj [("name", PStr "firecrawl_scrape");
                                ("description", PStr "Scrape a page")]])])
           (PList [PObj [("name", PStr "firecrawl_scrape");
                         ("description", PStr "Scrape a page")]])
           [PObj [("name", PStr "firecrawl_scrape");
                  ("description", PStr "Scrape a page")]]
           [ToolLine (PStr "firecrawl_scrape") (PStr "Scrape a page")]);
    try reflexivity.
  repeat constructor; do 2 eexists; repeat split; reflexivity.
Defined.

(** X27: [list_tools] returns either the empty list or exactly the
    collection the session advertised; it returns the empty list when the
    session raised and when one advertised tool lacks a [name] or a
    [description]. *)
Theorem list_tools_returns_listed_or_empty :
  forall T : transport,
    (snd (list_tools T) = PList []
     \/ exists tools,
          session_list_tools T = Returned tools
          /\ Py.getattr tools "tools" = Returned (snd (list_tools T)))
    /\ ((exists e, session_list_tools T = Raised e) -> snd (list_tools T) = PList [])
    /\ (forall tools listed items,
          session_list_tools T = Returned tools ->
          Py.getattr tools "tools" = Returned listed ->
          Py.iterate listed = Returned items ->
          Exists (fun item => Py.hasattr item "name" = false
                              \/ Py.hasattr item "description" = false) items ->
          snd (list_tools T) = PList []).
Proof.
  intros T. unfold list_tools. repeat split.
  - destruct (session_list_tools T) as [ tools | e ]; [ | now left ].
    destruct (Py.getattr tools "tools") as [ listed | e ] eqn:Hlisted; [ | now left ].
    destruct (Py.iterate listed) as [ items | e ]; [ | now left ].
    destruct (tool_lines items) as [ events [ [] | e ] ]; [ | now left ].
    right. now exists tools.
  - intros [ e He ]. now rewrite He.
  - intros tools listed items Hcall Hlisted Hiter Hbad.
    rewrite Hcall, Hlisted, Hiter.
    destruct (tool_lines_fail items Hbad) as (events & e & Hrun).
    now rewrite Hrun.
Qed.

Lemma save_to_table_unsupported_format_witness :
  save_to_table (quiet_environment sample_clock (Returned PNone))
                two_items (Some "table") "parquet"
  = ([Print (UnsupportedFormat "parquet")], Returned tt).
Proof.
  apply (save_to_table_unsupported_format _ two_items
           (PList [text_item "A"; text_item "B"])
           [text_item "A"; text_item "B"] [PStr "A"; PStr "B"]
           (one_column [PStr "A"; PStr "B"]));
    try reflexivity.
  split; discriminate.
Defined.

Lemma make_serializable_idempotent_mapping_free_witness :
  _make_serializable
    (_make_serializable (PTuple [PStr "a"; PList [PInt 1; PNone]; PBool true]))
  = _make_serializable (PTuple [PStr "a"; PList [PInt 1; PNone]; PBool true]).
Proof.
  apply make_serializable_idempotent_mapping_free. reflexivity.
Defined.

Lemma init_raises_without_candidate_witness :
  exists e, __init__ (fun _ => false) [("FIRECRAWL_API_KEY", "fc-key")] None = Raised e.
Proof.
  apply (proj2 (init_raises_without_candidate
                  (fun _ => false) [("FIRECRAWL_API_KEY", "fc-key")] None)).
  split; [ reflexivity | intros candidate _; reflexivity ].
Defined.

Lemma list_tools_returns_listed_or_empty_witness :
  snd (list_tools (quiet_transport (Raised (Exception "McpError" "Connection closed"))))
  = PList [].
Proof.
  apply (proj1 (proj2 (list_tools_returns_listed_or_empty
                         (quiet_transport
                            (Raised (Exception "McpError" "Connection closed")))))).
  now eexists.
Defined.
